(** * Realtime_AI_Backend: the per-session conversation loop of [app2.py]

    A shallow embedding of [ConversationState.add_event],
    [process_tool_call], [stream_llm_response], [websocket_endpoint] and
    [handle_session_end], with the properties of the orchestration loop
    stated and proved over it.

    Conventions of the embedding.
    - A Python [str] is a [string] whose characters are the code points
      0..255; code points above 255 are outside the model.
    - Python exceptions are explicit values: a call that may raise returns a
      sum whose left side is the exception, and every [try]/[except] of the
      source is a [match] on it; an exception that no handler of a function
      catches is the [Exn] result of that function, with the store as the
      exception found it.
    - The mutable objects of one connection (the [ConversationState], the
      shared [messages] list, the datastore tables and the websocket) live in
      one store, the record [Task], threaded through every operation.
    - The completion service, the datastore and the Python library functions
      [json.loads], [json.dumps] and [str] are interfaces ([Services],
      [PyRuntime]); every theorem holds for all their implementations.
      Reference implementations are given to run the program on examples.
    - A call the source wraps in [try] may fail (the completion call, the
      insert into [events], the update of [sessions], [json.loads], the
      tools); a call it leaves unguarded ([send_json], [json.dumps], the
      insert into [sessions], the select on [events]) is taken to succeed.
    - [print] and [asyncio.sleep] have no effect on the store and are
      dropped; wall-clock values ([start_time], [end_time], the duration)
      are not represented. *)

From Stdlib Require Import List String Ascii Bool Arith ZArith Lia.
From Stdlib Require Import DecimalString Sorted.
Import ListNotations.
Set Warnings "-register-all".
Open Scope string_scope.
Open Scope list_scope.

(** ** Python strings *)

Module PyStr.

(** [str.isspace] on the code points 0..255. *)
Definition isspace (c : ascii) : bool :=
  let n := nat_of_ascii c in
  (((9 <=? n) && (n <=? 13)) || ((28 <=? n) && (n <=? 32))
   || (n =? 133) || (n =? 160))%nat.

Fixpoint lstrip (s : string) : string :=
  match s with
  | EmptyString => EmptyString
  | String c s' => if isspace c then lstrip s' else s
  end.

Fixpoint rstrip (s : string) : string :=
  match s with
  | EmptyString => EmptyString
  | String c s' =>
      match rstrip s' with
      | EmptyString => if isspace c then EmptyString else String c EmptyString
      | r => String c r
      end
  end.

(** [s.strip()] *)
Definition strip (s : string) : string := rstrip (lstrip s).

(** [s.startswith(p)] *)
Definition startswith (s p : string) : bool := String.prefix p s.

(** Truth value of a string: [bool(s)]. *)
Definition truthy (s : string) : bool := negb (s =? "").

(** [s[:n]] *)
Definition take (n : nat) (s : string) : string := String.substring 0 n s.

(** [sep.join(l)] *)
Definition join (sep : string) (l : list string) : string := String.concat sep l.

End PyStr.

(** ** JSON values, as [json.loads] builds them *)

Inductive json : Type :=
  | JNull
  | JBool (b : bool)
  | JInt (n : Z)
  | JFloat (literal : string)
  | JStr (s : string)
  | JArr (items : list json)
  | JObj (members : list (string * json)).

(** A [dict] keeps insertion order and one value per key. *)
Fixpoint dict_lookup (d : list (string * json)) (k : string) : option json :=
  match d with
  | [] => None
  | (k', v) :: d' => if k' =? k then Some v else dict_lookup d' k
  end.

Fixpoint dict_set (d : list (string * json)) (k : string) (v : json)
  : list (string * json) :=
  match d with
  | [] => [(k, v)]
  | (k', v') :: d' =>
      if k' =? k then (k, v) :: d' else (k', v') :: dict_set d' k v
  end.

(** Exceptions the modelled code can meet. *)
Inductive PyExn : Type :=
  | KeyError (key : string)
  | TypeError (msg : string)
  | AttributeError (msg : string)
  | JSONDecodeError
  | ValueError (msg : string)
  | RecursionError (msg : string)
  | WebSocketDisconnect.

(** [isinstance(e, json.JSONDecodeError)]: what [except
    json.JSONDecodeError] catches. A plain [ValueError] is not one. *)
Definition is_decode_error (e : PyExn) : bool :=
  match e with
  | JSONDecodeError => true
  | _ => false
  end.

Definition type_name (v : json) : string :=
  match v with
  | JNull => "NoneType"
  | JBool _ => "bool"
  | JInt _ => "int"
  | JFloat _ => "float"
  | JStr _ => "str"
  | JArr _ => "list"
  | JObj _ => "dict"
  end.

(** [str(e)]; a [KeyError] shows the [repr] of its key, and the keys used
    here are plain identifiers. *)
Definition exn_str (e : PyExn) : string :=
  match e with
  | KeyError k => "'" ++ k ++ "'"
  | TypeError m => m
  | AttributeError m => m
  | JSONDecodeError => "Expecting value"
  | ValueError m => m
  | RecursionError m => m
  | WebSocketDisconnect => ""
  end.

(** [v[key]] for a string key (messages as CPython 3.11 words them). *)
Definition getitem (v : json) (key : string) : PyExn + json :=
  match v with
  | JObj d =>
      match dict_lookup d key with
      | Some x => inr x
      | None => inl (KeyError key)
      end
  | JArr _ => inl (TypeError "list indices must be integers or slices, not str")
  | JStr _ => inl (TypeError "string indices must be integers, not 'str'")
  | _ => inl (TypeError ("'" ++ type_name v ++ "' object is not subscriptable"))
  end.

(** [v[:8]] *)
Definition slice8 (v : json) : PyExn + json :=
  match v with
  | JStr s => inr (JStr (PyStr.take 8 s))
  | JArr l => inr (JArr (firstn 8 l))
  | JObj _ => inl (TypeError "unhashable type: 'slice'")
  | _ => inl (TypeError ("'" ++ type_name v ++ "' object is not subscriptable"))
  end.

(** [d.get(key, default)]; only a [dict] has the method. *)
Definition dict_get (v : json) (key : string) (default : json) : PyExn + json :=
  match v with
  | JObj d =>
      match dict_lookup d key with
      | Some x => inr x
      | None => inr default
      end
  | _ => inl (AttributeError
                ("'" ++ type_name v ++ "' object has no attribute 'get'"))
  end.

(** The library functions the program calls. [json_loads] answers [inl e]
    where [json.loads] raises [e]: [JSONDecodeError] on text that is not
    JSON, and also whatever else the decoder raises ([RecursionError] on
    deep nesting, [ValueError] on an integer with too many digits). Its
    input is always a [str]. *)
Class PyRuntime : Type := {
  json_loads : string -> PyExn + json;
  json_dumps : json -> string;
  format_value : json -> string   (* what an f-string puts for [{v}] *)
}.

(** ** Data model *)

(** A tool invocation requested by the model: [tool_call.id],
    [tool_call.function.name], [tool_call.function.arguments] (raw text). *)
Record ToolCall : Type := {
  tc_id : string;
  tc_name : string;
  tc_arguments : string
}.

(** One turn of the model-facing history, a dict with optional keys. A
    tool-call entry [{"id", "type": "function", "function": {"name",
    "arguments"}}] holds the three fields of [ToolCall] unchanged. *)
Record Message : Type := {
  role : string;
  content : option string;
  tool_calls : option (list ToolCall);
  tool_call_id : option string
}.

(** [response.choices[0].message] *)
Record Response : Type := {
  resp_content : option string;
  resp_tool_calls : option (list ToolCall)
}.

(** A row of the [events] table ([event_data]). *)
Record Event : Type := {
  ev_session_id : string;
  ev_event_type : string;
  ev_role : option string;
  ev_content : option string;
  ev_tool_call_id : option string;
  ev_tool_name : option string;
  ev_tool_result : option string;
  ev_sequence_num : nat
}.

(** A row of the [sessions] table. *)
Record SessionRow : Type := {
  row_session_id : string;
  row_user_id : string;
  row_status : string;
  row_summary : option (option string)   (* unset / set, possibly to None *)
}.

(** Frames handed to [websocket.send_json]. [FrameToolUse] carries the JSON
    document of the result as its text: the source sends
    [json.loads(tool_result)], where [tool_result] always comes out of
    [json.dumps]. *)
Inductive Frame : Type :=
  | FrameText (content : string)                 (* type text, chunk True *)
  | FrameToolUse (tool : string) (result : string)
  | FrameError (content : string)
  | FrameDone.

(** The external collaborators. The completion call answers [inl msg] when
    it raises, [msg] being [str(e)]; its constant keyword arguments (model,
    token limit, tool schema) are left out and the call number stands for
    whatever else the provider depends on. The two datastore writes the
    source guards with [try] may fail. *)
Class Services : Type := {
  completions_create : nat -> list Message -> string + Response;
  events_insert_ok : Event -> bool;
  sessions_update_ok : string -> bool
}.

(** The store of one connection. The first three fields are the attributes
    of [ConversationState]; [messages] is the list created in
    [websocket_endpoint] and mutated in place by [stream_llm_response].
    [issued_events] and [tool_invocations] are history variables: every
    [event_data] built by [add_event], and the arguments of every call of
    [process_tool_call], oldest first. *)
Record Task : Type := {
  session_id : string;
  user_id : string;
  event_sequence : nat;
  messages : list Message;
  events_table : list Event;
  sessions_table : list SessionRow;
  sent : list Frame;
  llm_calls : nat;
  issued_events : list Event;
  tool_invocations : list (string * json)
}.

Definition system_prompt : string :=
  "You are a helpful assistant. When users ask about user data or knowledge base searches:
- Use fetch_user_data tool for user information
- Use search_knowledge_base tool for knowledge lookups
Answer based on tool results.".

Definition max_iterations : nat := 3.

(** How a function of the engine ends: it returns, or an exception leaves
    it; either way with the store as it then is. *)
Inductive Result : Type :=
  | Ok (t : Task)
  | Exn (e : PyExn) (t : Task).

Definition store (r : Result) : Task :=
  match r with
  | Ok t => t
  | Exn _ t => t
  end.

Definition raised (r : Result) : option PyExn :=
  match r with
  | Ok _ => None
  | Exn e _ => Some e
  end.

Section Engine.

Context {py : PyRuntime} {svc : Services}.

(** *** [ConversationState.add_event] *)

Definition add_event (event_type : string)
    (role content tool_call_id tool_name tool_result : option string)
    (t : Task) : Task :=
  let event_sequence' := event_sequence t + 1 in
  let event_data :=
    {| ev_session_id := session_id t;
       ev_event_type := event_type;
       ev_role := role;
       ev_content := content;
       ev_tool_call_id := tool_call_id;
       ev_tool_name := tool_name;
       ev_tool_result := tool_result;
       ev_sequence_num := event_sequence' |} in
  {| session_id := session_id t;
     user_id := user_id t;
     event_sequence := event_sequence';
     messages := messages t;
     events_table :=
       if events_insert_ok event_data
       then events_table t ++ [event_data]
       else events_table t;                 (* except Exception: print *)
     sessions_table := sessions_table t;
     sent := sent t;
     llm_calls := llm_calls t;
     issued_events := issued_events t ++ [event_data];
     tool_invocations := tool_invocations t |}.

(** [websocket.send_json(frame)] *)
Definition send_json (frame : Frame) (t : Task) : Task :=
  {| session_id := session_id t;
     user_id := user_id t;
     event_sequence := event_sequence t;
     messages := messages t;
     events_table := events_table t;
     sessions_table := sessions_table t;
     sent := sent t ++ [frame];
     llm_calls := llm_calls t;
     issued_events := issued_events t;
     tool_invocations := tool_invocations t |}.

(** [messages.extend(ms)]; [messages.append(m)] is the case [[m]]. *)
Definition messages_extend (ms : list Message) (t : Task) : Task :=
  {| session_id := session_id t;
     user_id := user_id t;
     event_sequence := event_sequence t;
     messages := messages t ++ ms;
     events_table := events_table t;
     sessions_table := sessions_table t;
     sent := sent t;
     llm_calls := llm_calls t;
     issued_events := issued_events t;
     tool_invocations := tool_invocations t |}.

Definition messages_append (m : Message) (t : Task) : Task :=
  messages_extend [m] t.

(** *** The tools *)

Definition fetch_user_data (user_id : json) : PyExn + json :=
  match slice8 user_id with
  | inl e => inl e
  | inr head =>
      inr (JObj [("user_id", user_id);
                 ("name", JStr ("User_" ++ format_value head));
                 ("tier", JStr "premium");
                 ("created_at", JStr "2024-01-15")])
  end.

Definition search_knowledge_base (query : json) : json :=
  JObj [("results",
         JArr [JStr ("Result for '" ++ format_value query ++ "' #1");
               JStr ("Result for '" ++ format_value query ++ "' #2")])].

Definition process_tool_call (tool_name : string) (tool_input : json)
  : PyExn + string :=
  if tool_name =? "fetch_user_data" then
    match getitem tool_input "user_id" with
    | inl e => inl e
    | inr user_id =>
        match fetch_user_data user_id with
        | inl e => inl e
        | inr result => inr (json_dumps result)
        end
    end
  else if tool_name =? "search_knowledge_base" then
    match getitem tool_input "query" with
    | inl e => inl e
    | inr query => inr (json_dumps (search_knowledge_base query))
    end
  else inr (json_dumps (JObj [("error", JStr "Unknown tool")])).

(** Calling [process_tool_call] leaves a trace in [tool_invocations]. *)
Definition call_tool (tool_name : string) (tool_input : json) (t : Task)
  : (PyExn + string) * Task :=
  (process_tool_call tool_name tool_input,
   {| session_id := session_id t;
      user_id := user_id t;
      event_sequence := event_sequence t;
      messages := messages t;
      events_table := events_table t;
      sessions_table := sessions_table t;
      sent := sent t;
      llm_calls := llm_calls t;
      issued_events := issued_events t;
      tool_invocations := tool_invocations t ++ [(tool_name, tool_input)] |}).

(** [groq_client.chat.completions.create(..., messages=request)] *)
Definition create_completion (request : list Message) (t : Task)
  : (string + Response) * Task :=
  (completions_create (llm_calls t) request,
   {| session_id := session_id t;
      user_id := user_id t;
      event_sequence := event_sequence t;
      messages := messages t;
      events_table := events_table t;
      sessions_table := sessions_table t;
      sent := sent t;
      llm_calls := llm_calls t + 1;
      issued_events := issued_events t;
      tool_invocations := tool_invocations t |}).

(** *** [stream_llm_response] *)

Definition assistant_text_turn (response_text : string) : Message :=
  {| role := "assistant"; content := Some response_text;
     tool_calls := None; tool_call_id := None |}.

Definition assistant_calls_turn (tool_calls_list : list ToolCall) : Message :=
  {| role := "assistant"; content := None;
     tool_calls := Some tool_calls_list; tool_call_id := None |}.

Definition tool_turn (id tool_result : string) : Message :=
  {| role := "tool"; content := Some tool_result;
     tool_calls := None; tool_call_id := Some id |}.

Definition user_turn (text : string) : Message :=
  {| role := "user"; content := Some text;
     tool_calls := None; tool_call_id := None |}.

(** The value of [response_text] after the first [if] of the loop body. *)
Definition response_text_of (response : Response) : string :=
  match resp_content response with
  | Some c => if PyStr.truthy c then PyStr.strip c else ""
  | None => ""
  end.

(** The text part of the loop body: the event and the frame, then the
    history turn. *)
Definition handle_text (response : Response) (t : Task) : Task :=
  let t1 :=
    match resp_content response with
    | Some c =>
        if PyStr.truthy c then
          let response_text := PyStr.strip c in
          if PyStr.truthy response_text
             && negb (PyStr.startswith response_text "I'll")
          then
            send_json (FrameText response_text)
              (add_event "assistant_message"
                 (Some "assistant") (Some response_text) None None None t)
          else t
        else t
    | None => t
    end in
  let response_text := response_text_of response in
  if PyStr.truthy response_text
  then messages_append (assistant_text_turn response_text) t1
  else t1.

(** Lines 213-217: [json.loads] on the raw arguments under [except
    json.JSONDecodeError]. A decode error gives the empty dict; any other
    exception is not caught. *)
Definition load_tool_input (tool_call : ToolCall) : PyExn + json :=
  match json_loads (tc_arguments tool_call) with
  | inr v => inr v
  | inl e => if is_decode_error e then inr (JObj []) else inl e
  end.

(** Body of the first [for tool_call in tool_calls_list]. *)
Definition run_tool_call (tool_call : ToolCall) (t : Task) : Result :=
  let tool_use_id := tc_id tool_call in
  let tool_name := tc_name tool_call in
  match load_tool_input tool_call with
  | inl e => Exn e t
  | inr tool_input =>
      let t := add_event "tool_call" None (Some (json_dumps tool_input))
                 (Some tool_use_id) (Some tool_name) None t in
      let '(r, t) := call_tool tool_name tool_input t in
      let tool_result :=
        match r with
        | inr s => s
        | inl e => json_dumps (JObj [("error", JStr (exn_str e))])
        end in
      let t := add_event "tool_result" None None
                 (Some tool_use_id) (Some tool_name) (Some tool_result) t in
      Ok (send_json (FrameToolUse tool_name tool_result) t)
  end.

(** The first [for tool_call in tool_calls_list]; an exception leaves it
    at the call that raised. *)
Fixpoint run_tool_calls (tool_calls_list : list ToolCall) (t : Task)
  : Result :=
  match tool_calls_list with
  | [] => Ok t
  | tool_call :: rest =>
      match run_tool_call tool_call t with
      | Ok t => run_tool_calls rest t
      | Exn e t => Exn e t
      end
  end.

(** Body of the second [for tool_call in tool_calls_list], which fills
    [tool_results]; any exception skips the call. *)
Definition tool_result_turn (tool_call : ToolCall)
    (acc : list Message * Task) : list Message * Task :=
  let '(tool_results, t) := acc in
  match json_loads (tc_arguments tool_call) with
  | inl _ => (tool_results, t)                       (* except Exception *)
  | inr tool_input =>
      let '(r, t) := call_tool (tc_name tool_call) tool_input t in
      match r with
      | inr tool_result =>
          (tool_results ++ [tool_turn (tc_id tool_call) tool_result], t)
      | inl _ => (tool_results, t)
      end
  end.

(** The tool part of the loop body, entered when [tool_calls] is a
    non-empty list. *)
Definition handle_tool_calls (tool_calls_list : list ToolCall) (t : Task)
  : Result :=
  match run_tool_calls tool_calls_list t with
  | Exn e t => Exn e t
  | Ok t =>
      let t := messages_append (assistant_calls_turn tool_calls_list) t in
      let '(tool_results, t) :=
        fold_left (fun acc tc => tool_result_turn tc acc)
          tool_calls_list ([], t) in
      Ok (messages_extend tool_results t)
  end.

(** The loop body from [has_tool_use = False] on; answers [has_tool_use]
    and how the body ended. *)
Definition on_response (response : Response) (t : Task) : bool * Result :=
  let t := handle_text response t in
  match resp_tool_calls response with
  | Some (tc :: tcs) => (true, handle_tool_calls (tc :: tcs) t)
  | Some [] => (false, Ok t)
  | None => (false, Ok t)
  end.

(** [while iteration < max_iterations]; [fuel] bounds the number of times
    the loop test is evaluated, and [None] means it ran out. *)
Fixpoint while_loop (fuel iteration : nat) (t : Task) : option Result :=
  match fuel with
  | O => None
  | S fuel' =>
      if (iteration <? max_iterations)%nat then
        let iteration := iteration + 1 in
        let groq_messages :=
          if (iteration =? 1)%nat
          then user_turn system_prompt :: messages t
          else messages t in
        match create_completion groq_messages t with
        | (inl e, t) => Some (Ok (send_json (FrameError e) t))   (* break *)
        | (inr response, t) =>
            match on_response response t with
            | (_, Exn e t) => Some (Exn e t)
            | (true, Ok t) => while_loop fuel' iteration t
            | (false, Ok t) => Some (Ok t)                       (* break *)
            end
        end
      else Some (Ok t)
  end.

(** The [done] frame is sent after the loop, so only when the loop
    returns. *)
Definition stream_llm_response (t : Task) : option Result :=
  match while_loop (S max_iterations) 0 t with
  | Some (Ok t) => Some (Ok (send_json FrameDone t))
  | Some (Exn e t) => Some (Exn e t)
  | None => None
  end.

(** *** [handle_session_end] *)

(** How an f-string shows a nullable column. *)
Definition show_column (c : option string) : string :=
  match c with
  | Some s => s
  | None => "None"
  end.

Definition narrative_line (event : Event) : list string :=
  if ev_event_type event =? "user_message" then
    [("User: " ++ show_column (ev_content event))%string]
  else if ev_event_type event =? "assistant_message" then
    [("Assistant: " ++ show_column (ev_content event))%string]
  else if ev_event_type event =? "tool_call" then
    [("[Tool Call] " ++ show_column (ev_tool_name event) ++ ": "
        ++ show_column (ev_content event))%string]
  else [].

Fixpoint insert_by_sequence (e : Event) (l : list Event) : list Event :=
  match l with
  | [] => [e]
  | x :: l' =>
      if (ev_sequence_num e <? ev_sequence_num x)%nat
      then e :: l
      else x :: insert_by_sequence e l'
  end.

(** [select("*").eq("session_id", sid).order("sequence_num")] *)
Definition select_events (sid : string) (table : list Event) : list Event :=
  fold_left (fun acc e => insert_by_sequence e acc)
    (filter (fun e => ev_session_id e =? sid) table) [].

Definition summary_prompt (conversation_text : string) : string :=
  "Summarize this conversation in bullet points. 
Keep it under 150 words. Include key topics, user intent, and assistant actions.

Conversation:
" ++ conversation_text.

Definition complete_session (summary : option string) (r : SessionRow)
  : SessionRow :=
  {| row_session_id := row_session_id r;
     row_user_id := row_user_id r;
     row_status := "completed";
     row_summary := Some summary |}.

(** [supabase.table("sessions").update({...}).eq("session_id", sid)] *)
Definition sessions_update (summary : option string) (t : Task) : Task :=
  {| session_id := session_id t;
     user_id := user_id t;
     event_sequence := event_sequence t;
     messages := messages t;
     events_table := events_table t;
     sessions_table :=
       if sessions_update_ok (session_id t)
       then map (fun r => if row_session_id r =? session_id t
                          then complete_session summary r else r)
              (sessions_table t)
       else sessions_table t;               (* except Exception: print *)
     sent := sent t;
     llm_calls := llm_calls t;
     issued_events := issued_events t;
     tool_invocations := tool_invocations t |}.

Definition handle_session_end (t : Task) : Task :=
  let events := select_events (session_id t) (events_table t) in
  let narrative := flat_map narrative_line events in
  let conversation_text := PyStr.join "
" narrative in
  let '(r, t) :=
    create_completion [user_turn (summary_prompt conversation_text)] t in
  let summary :=
    match r with
    | inr summary_response => resp_content summary_response
    | inl _ => Some "Summary generation failed"
    end in
  let t := add_event "session_end" None summary None None None t in
  sessions_update summary t.

(** *** [websocket_endpoint] *)

(** [data.get("type") == "message"] *)
Definition is_message_type (v : json) : bool :=
  match v with
  | JStr s => s =? "message"
  | _ => false
  end.

(** Lines 307-311: the user event, the user turn, the loop. *)
Definition run_turn (user_input : string) (t : Task) : option Result :=
  let t := add_event "user_message" (Some "user") (Some user_input)
             None None None t in
  let t := messages_append (user_turn user_input) t in
  stream_llm_response t.

(** How one pass of the receive loop ends. *)
Inductive Step : Type :=
  | Continue (t : Task)                  (* back to [receive_json] *)
  | Raise (e : PyExn) (t : Task)         (* an exception leaves the loop *)
  | Stuck.                               (* the inner loop ran out of fuel *)

(** One pass of [while True] over a received text frame. *)
Definition on_frame (frame : string) (t : Task) : Step :=
  match json_loads frame with
  | inl e => Raise e t
  | inr data =>
      match dict_get data "type" JNull with
      | inl e => Raise e t
      | inr ty =>
          if is_message_type ty then
            match dict_get data "content" (JStr "") with
            | inl e => Raise e t
            | inr (JStr c) =>
                let user_input := PyStr.strip c in
                if negb (PyStr.truthy user_input) then Continue t
                else
                  match run_turn user_input t with
                  | Some (Ok t) => Continue t
                  | Some (Exn e t) => Raise e t
                  | None => Stuck
                  end
            | inr v =>
                Raise (AttributeError ("'" ++ type_name v
                         ++ "' object has no attribute 'strip'")) t
            end
          else Continue t
      end
  end.

(** The receive loop over the frames the client sends before it
    disconnects; it only ends by an exception. *)
Fixpoint receive_loop (frames : list string) (t : Task)
  : option (PyExn * Task) :=
  match frames with
  | [] => Some (WebSocketDisconnect, t)
  | frame :: frames' =>
      match on_frame frame t with
      | Continue t => receive_loop frames' t
      | Raise e t => Some (e, t)
      | Stuck => None
      end
  end.

Definition active_row (sid uid : string) : SessionRow :=
  {| row_session_id := sid; row_user_id := uid;
     row_status := "active"; row_summary := None |}.

(** One connection: [sid] is the path parameter, [uid] the generated user
    id, [events0] and [sessions0] the tables as the connection finds them,
    [frames] what the client sends. Both [except] clauses run
    [handle_session_end]. *)
Definition websocket_endpoint (sid uid : string)
    (events0 : list Event) (sessions0 : list SessionRow)
    (frames : list string) : option Task :=
  let t :=
    {| session_id := sid;
       user_id := uid;
       event_sequence := 0;
       messages := [];
       events_table := events0;
       sessions_table := sessions0 ++ [active_row sid uid];
       sent := [];
       llm_calls := 0;
       issued_events := [];
       tool_invocations := [] |} in
  let t := add_event "session_start" None (Some sid) None None None t in
  match receive_loop frames t with
  | Some (_, t) => Some (handle_session_end t)
  | None => None
  end.

End Engine.

Arguments add_event : simpl never.
Arguments send_json : simpl never.
Arguments messages_extend : simpl never.
Arguments messages_append : simpl never.
Arguments call_tool : simpl never.
Arguments create_completion : simpl never.
Arguments sessions_update : simpl never.
Arguments handle_text : simpl never.
Arguments run_tool_call : simpl never.
Arguments run_tool_calls : simpl never.
Arguments load_tool_input : simpl never.
Arguments tool_result_turn : simpl never.
Arguments handle_tool_calls : simpl never.
Arguments on_response : simpl never.
Arguments stream_llm_response : simpl never.
Arguments handle_session_end : simpl never.
Arguments run_turn : simpl never.
Arguments on_frame : simpl never.

(** ** Reference implementations of the library functions

    [Reference.cpython] follows CPython 3.11's [json] module and [str] on
    the data model of this file: [json.loads] in its default strict mode,
    with the default limit of 4300 digits on integers and a bound on
    nesting, [json.dumps] with its default separators and [ensure_ascii].
    It departs from CPython where the data model has no value for the
    answer: a float is kept as the literal it was read from (CPython
    normalises it), and a [\u] escape above code point 255 is refused
    (CPython accepts it). The runs below use none of these inputs. *)

Module Reference.

Definition dquote : ascii := ascii_of_nat 34.
Definition backslash : ascii := ascii_of_nat 92.
Definition apostrophe : ascii := ascii_of_nat 39.

(** Write JSON text with ['] standing for the double quote. *)
Fixpoint dq (s : string) : string :=
  match s with
  | EmptyString => EmptyString
  | String c s' => String (if Ascii.eqb c apostrophe then dquote else c) (dq s')
  end.

Definition is_ws (c : ascii) : bool :=
  let n := nat_of_ascii c in
  ((n =? 32) || (n =? 9) || (n =? 10) || (n =? 13))%nat.

Fixpoint skip_ws (s : string) : string :=
  match s with
  | EmptyString => EmptyString
  | String c s' => if is_ws c then skip_ws s' else s
  end.

Definition is_digit (c : ascii) : bool :=
  let n := nat_of_ascii c in ((48 <=? n) && (n <=? 57))%nat.

Fixpoint take_digits (s : string) : string * string :=
  match s with
  | EmptyString => (EmptyString, EmptyString)
  | String c s' =>
      if is_digit c
      then let '(ds, r) := take_digits s' in (String c ds, r)
      else (EmptyString, s)
  end.

Fixpoint int_of_digits (acc : Z) (ds : string) : Z :=
  match ds with
  | EmptyString => acc
  | String c ds' =>
      int_of_digits (10 * acc + Z.of_nat (nat_of_ascii c - 48)) ds'
  end.

Definition hex_val (c : ascii) : option nat :=
  let n := nat_of_ascii c in
  if ((48 <=? n) && (n <=? 57))%nat then Some (n - 48)
  else if ((97 <=? n) && (n <=? 102))%nat then Some (n - 87)
  else if ((65 <=? n) && (n <=? 70))%nat then Some (n - 55)
  else None.

Definition hex4 (a b c d : ascii) : option nat :=
  match hex_val a, hex_val b, hex_val c, hex_val d with
  | Some x, Some y, Some z, Some w => Some (((x * 16 + y) * 16 + z) * 16 + w)
  | _, _, _, _ => None
  end.

Definition unescape (e : ascii) : option ascii :=
  let n := nat_of_ascii e in
  if (n =? 34)%nat then Some dquote
  else if (n =? 92)%nat then Some backslash
  else if (n =? 47)%nat then Some "/"%char
  else if (n =? 98)%nat then Some (ascii_of_nat 8)
  else if (n =? 102)%nat then Some (ascii_of_nat 12)
  else if (n =? 110)%nat then Some (ascii_of_nat 10)
  else if (n =? 114)%nat then Some (ascii_of_nat 13)
  else if (n =? 116)%nat then Some (ascii_of_nat 9)
  else None.

Definition cons_result (c : ascii) (r : option (string * string))
  : option (string * string) :=
  match r with
  | Some (x, rest) => Some (String c x, rest)
  | None => None
  end.

(** The body of a string, after its opening quote. *)
Fixpoint scan_string (s : string) : option (string * string) :=
  match s with
  | EmptyString => None
  | String c s1 =>
      if Ascii.eqb c dquote then Some (EmptyString, s1)
      else if Ascii.eqb c backslash then
        match s1 with
        | String e s2 =>
            match unescape e with
            | Some ch => cons_result ch (scan_string s2)
            | None =>
                if Ascii.eqb e "u"%char then
                  match s2 with
                  | String h1 (String h2 (String h3 (String h4 s6))) =>
                      match hex4 h1 h2 h3 h4 with
                      | Some n =>
                          if (n <? 256)%nat
                          then cons_result (ascii_of_nat n) (scan_string s6)
                          else None
                      | None => None
                      end
                  | _ => None
                  end
                else None
            end
        | EmptyString => None
        end
      else if (nat_of_ascii c <? 32)%nat then None
      else cons_result c (scan_string s1)
  end.

Definition drop (n : nat) (s : string) : string :=
  String.substring n (String.length s - n) s.

Definition scan_fraction (r : string) : string * string :=
  match r with
  | String "."%char r' =>
      match take_digits r' with
      | (EmptyString, _) => (EmptyString, r)
      | (fd, r'') => (String "."%char fd, r'')
      end
  | _ => (EmptyString, r)
  end.

Definition scan_exponent (r : string) : string * string :=
  match r with
  | String e r' =>
      if Ascii.eqb e "e"%char || Ascii.eqb e "E"%char then
        let '(sign, r'') :=
          match r' with
          | String "+"%char x => ("+", x)
          | String "-"%char x => ("-", x)
          | _ => (EmptyString, r')
          end in
        match take_digits r'' with
        | (EmptyString, _) => (EmptyString, r)
        | (ed, r''') => (String e (sign ++ ed), r''')
        end
      else (EmptyString, r)
  | EmptyString => (EmptyString, r)
  end.

(** [sys.int_info.default_max_str_digits] *)
Definition max_str_digits : nat := 4300.

(** The nesting of arrays and objects that the decoder can enter before
    the interpreter's recursion limit (1000 by default) stops it. The exact
    figure depends on the frames already on the stack. *)
Definition nesting_budget : nat := 900.

Definition decimal_nat (n : nat) : string :=
  NilZero.string_of_uint (Nat.to_uint n).

Definition digits_error (n : nat) : PyExn :=
  ValueError
    ("Exceeds the limit (4300 digits) for integer string conversion: value has "
     ++ decimal_nat n
     ++ " digits; use sys.set_int_max_str_digits() to increase the limit").

Definition finish_number (neg : bool) (ds r : string)
  : PyExn + (json * string) :=
  let '(frac, r1) := scan_fraction r in
  let '(exp, r2) := scan_exponent r1 in
  match frac, exp with
  | EmptyString, EmptyString =>
      if (max_str_digits <? String.length ds)%nat
      then inl (digits_error (String.length ds))
      else
        inr (JInt (if neg then - int_of_digits 0 ds else int_of_digits 0 ds),
             r2)
  | _, _ => inr (JFloat ((if neg then "-" else "") ++ ds ++ frac ++ exp), r2)
  end.

Definition scan_number (s : string) : PyExn + (json * string) :=
  let '(neg, s1) :=
    match s with
    | String "-"%char r => (true, r)
    | _ => (false, s)
    end in
  match s1 with
  | String "0"%char r => finish_number neg "0" r
  | String c _ =>
      if is_digit c then
        let '(ds, r) := take_digits s1 in finish_number neg ds r
      else if neg && String.prefix "Infinity" s1
      then inr (JFloat "-Infinity", drop 8 s1)
      else inl JSONDecodeError
  | EmptyString => inl JSONDecodeError
  end.

Definition scan_literal (s : string) : PyExn + (json * string) :=
  if String.prefix "null" s then inr (JNull, drop 4 s)
  else if String.prefix "true" s then inr (JBool true, drop 4 s)
  else if String.prefix "false" s then inr (JBool false, drop 5 s)
  else if String.prefix "NaN" s then inr (JFloat "NaN", drop 3 s)
  else if String.prefix "Infinity" s then inr (JFloat "Infinity", drop 8 s)
  else scan_number s.

Definition too_deep (what : string) : PyExn :=
  RecursionError
    ("maximum recursion depth exceeded while decoding a JSON " ++ what
     ++ " from a unicode string").

(** [fuel] bounds the number of calls and is always enough; [depth] is
    the nesting still allowed. *)
Fixpoint parse_value (fuel depth : nat) (s : string)
  : PyExn + (json * string) :=
  match fuel with
  | O => inl JSONDecodeError
  | S fuel' =>
      match s with
      | String "{"%char r =>
          match depth with
          | O => inl (too_deep "object")
          | S depth' =>
              match skip_ws r with
              | String "}"%char r' => inr (JObj [], r')
              | r' => parse_members fuel' depth' [] r'
              end
          end
      | String "["%char r =>
          match depth with
          | O => inl (too_deep "array")
          | S depth' =>
              match skip_ws r with
              | String "]"%char r' => inr (JArr [], r')
              | r' => parse_elements fuel' depth' [] r'
              end
          end
      | String c r =>
          if Ascii.eqb c dquote then
            match scan_string r with
            | Some (x, r') => inr (JStr x, r')
            | None => inl JSONDecodeError
            end
          else scan_literal s
      | EmptyString => inl JSONDecodeError
      end
  end
with parse_elements (fuel depth : nat) (acc : list json) (s : string)
  : PyExn + (json * string) :=
  match fuel with
  | O => inl JSONDecodeError
  | S fuel' =>
      match parse_value fuel' depth s with
      | inr (v, r) =>
          match skip_ws r with
          | String ","%char r' =>
              parse_elements fuel' depth (acc ++ [v]) (skip_ws r')
          | String "]"%char r' => inr (JArr (acc ++ [v]), r')
          | _ => inl JSONDecodeError
          end
      | inl e => inl e
      end
  end
with parse_members (fuel depth : nat) (acc : list (string * json))
    (s : string) : PyExn + (json * string) :=
  match fuel with
  | O => inl JSONDecodeError
  | S fuel' =>
      match s with
      | String c r =>
          if Ascii.eqb c dquote then
            match scan_string r with
            | Some (k, r1) =>
                match skip_ws r1 with
                | String ":"%char r2 =>
                    match parse_value fuel' depth (skip_ws r2) with
                    | inr (v, r3) =>
                        match skip_ws r3 with
                        | String ","%char r4 =>
                            parse_members fuel' depth (dict_set acc k v)
                              (skip_ws r4)
                        | String "}"%char r4 =>
                            inr (JObj (dict_set acc k v), r4)
                        | _ => inl JSONDecodeError
                        end
                    | inl e => inl e
                    end
                | _ => inl JSONDecodeError
                end
            | None => inl JSONDecodeError
            end
          else inl JSONDecodeError
      | EmptyString => inl JSONDecodeError
      end
  end.

Definition loads (s : string) : PyExn + json :=
  let s := skip_ws s in
  match parse_value (2 * String.length s + 4) nesting_budget s with
  | inr (v, r) =>
      match skip_ws r with
      | EmptyString => inr v
      | _ => inl JSONDecodeError                    (* extra data *)
      end
  | inl e => inl e
  end.

Definition hex_digit (n : nat) : ascii :=
  if (n <? 10)%nat then ascii_of_nat (48 + n) else ascii_of_nat (87 + n).

Definition hex2 (n : nat) : string :=
  String (hex_digit (n / 16)) (String (hex_digit (n mod 16)) EmptyString).

Definition decimal (n : Z) : string := NilZero.string_of_int (Z.to_int n).

(** One character inside a JSON string, [ensure_ascii] on. *)
Definition escape_json_char (c : ascii) : string :=
  let n := nat_of_ascii c in
  if (n =? 34)%nat then String backslash (String dquote EmptyString)
  else if (n =? 92)%nat then String backslash (String backslash EmptyString)
  else if (n =? 10)%nat then String backslash "n"
  else if (n =? 13)%nat then String backslash "r"
  else if (n =? 9)%nat then String backslash "t"
  else if (n =? 12)%nat then String backslash "f"
  else if (n =? 8)%nat then String backslash "b"
  else if ((32 <=? n) && (n <=? 126))%nat then String c EmptyString
  else String backslash ("u00" ++ hex2 n).

Fixpoint escape_json (s : string) : string :=
  match s with
  | EmptyString => EmptyString
  | String c s' => escape_json_char c ++ escape_json s'
  end.

Definition quote_json (s : string) : string :=
  String dquote (escape_json s ++ String dquote EmptyString).

Fixpoint dumps (v : json) : string :=
  match v with
  | JNull => "null"
  | JBool true => "true"
  | JBool false => "false"
  | JInt n => decimal n
  | JFloat literal => literal
  | JStr s => quote_json s
  | JArr items => "[" ++ PyStr.join ", " (map dumps items) ++ "]"
  | JObj members =>
      "{" ++ PyStr.join ", "
               (map (fun kv => (quote_json (fst kv) ++ ": "
                                ++ dumps (snd kv))%string) members)
          ++ "}"
  end.

Fixpoint contains (c : ascii) (s : string) : bool :=
  match s with
  | EmptyString => false
  | String c' s' => Ascii.eqb c c' || contains c s'
  end.

(** One character inside [repr] of a string quoted with [quote]. *)
Definition escape_repr_char (quote c : ascii) : string :=
  let n := nat_of_ascii c in
  if Ascii.eqb c quote || (n =? 92)%nat then String backslash (String c EmptyString)
  else if (n =? 10)%nat then String backslash "n"
  else if (n =? 13)%nat then String backslash "r"
  else if (n =? 9)%nat then String backslash "t"
  else if ((n <? 32) || ((127 <=? n) && (n <=? 160)) || (n =? 173))%nat
  then String backslash ("x" ++ hex2 n)
  else String c EmptyString.

Fixpoint escape_repr (quote : ascii) (s : string) : string :=
  match s with
  | EmptyString => EmptyString
  | String c s' => escape_repr_char quote c ++ escape_repr quote s'
  end.

Definition repr_str (s : string) : string :=
  let quote :=
    if contains apostrophe s && negb (contains dquote s)
    then dquote else apostrophe in
  String quote (escape_repr quote s ++ String quote EmptyString).

Fixpoint repr (v : json) : string :=
  match v with
  | JNull => "None"
  | JBool true => "True"
  | JBool false => "False"
  | JInt n => decimal n
  | JFloat literal => literal
  | JStr s => repr_str s
  | JArr items => "[" ++ PyStr.join ", " (map repr items) ++ "]"
  | JObj members =>
      "{" ++ PyStr.join ", "
               (map (fun kv => (repr_str (fst kv) ++ ": "
                                ++ repr (snd kv))%string) members)
          ++ "}"
  end.

(** [str(v)] *)
Definition str (v : json) : string :=
  match v with
  | JStr s => s
  | _ => repr v
  end.

Definition cpython : PyRuntime :=
  {| json_loads := loads; json_dumps := dumps; format_value := str |}.

End Reference.

(** ** Vocabulary of the properties *)

Section Vocabulary.

Context {py : PyRuntime} {svc : Services}.

Definition sent_without_done (t t' : Task) : Prop :=
  exists fs, sent t' = sent t ++ fs /\ ~ In FrameDone fs.

(** What [add_event] guarantees from one store to a later one: the events
    issued in between carry the next sequence numbers, one by one, and the
    table gained exactly those whose insert succeeded, in order. *)
Definition log_extends (t t' : Task) : Prop :=
  session_id t' = session_id t
  /\ exists evs,
       issued_events t' = issued_events t ++ evs
       /\ events_table t' = events_table t ++ filter events_insert_ok evs
       /\ map ev_sequence_num evs = seq (S (event_sequence t)) (List.length evs)
       /\ event_sequence t' = event_sequence t + List.length evs
       /\ Forall (fun e => ev_session_id e = session_id t) evs.

(** [emits Pe Pf t t']: from [t] to [t'] the issued events, the table, the
    frames and the history only grew, by events satisfying [Pe] and frames
    satisfying [Pf]. *)
Definition emits (Pe : Event -> Prop) (Pf : Frame -> Prop) (t t' : Task)
  : Prop :=
  exists evs rows fs ms,
    issued_events t' = issued_events t ++ evs
    /\ events_table t' = events_table t ++ rows
    /\ sent t' = sent t ++ fs
    /\ messages t' = messages t ++ ms
    /\ Forall Pe evs /\ Forall Pe rows /\ Forall Pf fs.

Definition assistant_message_event (t : Task) (text : string) : Event :=
  {| ev_session_id := session_id t;
     ev_event_type := "assistant_message";
     ev_role := Some "assistant";
     ev_content := Some text;
     ev_tool_call_id := None;
     ev_tool_name := None;
     ev_tool_result := None;
     ev_sequence_num := event_sequence t + 1 |}.

(** The arguments and the result of the first pass over a call (for a
    call that the first pass gets through). *)
Definition first_pass_input (tc : ToolCall) : json :=
  match json_loads (tc_arguments tc) with
  | inr v => v
  | inl _ => JObj []
  end.

Definition error_payload (e : PyExn) : string :=
  json_dumps (JObj [("error", JStr (exn_str e))]).

Definition first_pass_result (tc : ToolCall) : string :=
  match process_tool_call (tc_name tc) (first_pass_input tc) with
  | inr s => s
  | inl e => error_payload e
  end.

Definition tool_call_event (t : Task) (tc : ToolCall) : Event :=
  {| ev_session_id := session_id t;
     ev_event_type := "tool_call";
     ev_role := None;
     ev_content := Some (json_dumps (first_pass_input tc));
     ev_tool_call_id := Some (tc_id tc);
     ev_tool_name := Some (tc_name tc);
     ev_tool_result := None;
     ev_sequence_num := event_sequence t + 1 |}.

Definition tool_result_event (t : Task) (tc : ToolCall) : Event :=
  {| ev_session_id := session_id t;
     ev_event_type := "tool_result";
     ev_role := None;
     ev_content := None;
     ev_tool_call_id := Some (tc_id tc);
     ev_tool_name := Some (tc_name tc);
     ev_tool_result := Some (first_pass_result tc);
     ev_sequence_num := event_sequence t + 1 + 1 |}.

(** The history turns and the executions of the second pass. *)
Definition second_pass_turn (tc : ToolCall) : list Message :=
  match json_loads (tc_arguments tc) with
  | inr v =>
      match process_tool_call (tc_name tc) v with
      | inr r => [tool_turn (tc_id tc) r]
      | inl _ => []
      end
  | inl _ => []
  end.

Definition second_pass_invocation (tc : ToolCall) : list (string * json) :=
  match json_loads (tc_arguments tc) with
  | inr v => [(tc_name tc, v)]
  | inl _ => []
  end.

(** The frames the specification gives to the engine: a JSON object whose
    [type] is [message] and whose [content] is a string that is non-empty
    once trimmed; the answer is the trimmed content. *)
Definition user_message_of (frame : string) : option string :=
  match json_loads frame with
  | inr (JObj d) =>
      match dict_lookup d "type" with
      | Some (JStr ty) =>
          if ty =? "message" then
            match dict_lookup d "content" with
            | Some (JStr c) =>
                if PyStr.truthy (PyStr.strip c)
                then Some (PyStr.strip c) else None
            | _ => None
            end
          else None
      | _ => None
      end
  | _ => None
  end.

(** The frames on which the receive loop raises: text that is not JSON,
    JSON that is not an object, and a [message] whose [content] is present
    but not a string. *)
Definition ends_receive_loop (frame : string) : bool :=
  match json_loads frame with
  | inl _ => true
  | inr (JObj d) =>
      match dict_lookup d "type" with
      | Some (JStr ty) =>
          if ty =? "message" then
            match dict_lookup d "content" with
            | Some (JStr _) => false
            | Some _ => true
            | None => false
            end
          else false
      | _ => false
      end
  | inr _ => true
  end.

(** The frames a turn sends before it ends. *)
Definition content_frame (f : Frame) : Prop :=
  match f with
  | FrameText _ => True
  | FrameToolUse _ _ => True
  | FrameError _ => False
  | FrameDone => False
  end.

End Vocabulary.

(** ** Concrete services and inputs *)

Module Fixtures.

Import Reference.

Definition plain (text : string) : string + Response :=
  inr {| resp_content := Some text; resp_tool_calls := None |}.

Definition asks (calls : list ToolCall) : string + Response :=
  inr {| resp_content := None; resp_tool_calls := Some calls |}.

(** A provider that gives its [n]-th answer to its [n]-th call, and a
    datastore whose event inserts succeed where [insert_ok] says. *)
Definition scripted (answers : list (string + Response))
    (insert_ok : Event -> bool) : Services :=
  {| completions_create := fun n _ => nth n answers (plain "ok");
     events_insert_ok := insert_ok;
     sessions_update_ok := fun _ => true |}.

Definition always (answer : string + Response) : Services :=
  {| completions_create := fun _ _ => answer;
     events_insert_ok := fun _ => true;
     sessions_update_ok := fun _ => true |}.

Definition reliable (e : Event) : bool := true.

(** The store of a connection that has not done anything yet. *)
Definition fresh : Task :=
  {| session_id := "s1";
     user_id := "user_0a1b2c3d";
     event_sequence := 0;
     messages := [];
     events_table := [];
     sessions_table := [active_row "s1" "user_0a1b2c3d"];
     sent := [];
     llm_calls := 0;
     issued_events := [];
     tool_invocations := [] |}.

Definition search_x : ToolCall :=
  {| tc_id := "call_1"; tc_name := "search_knowledge_base";
     tc_arguments := dq "{'query': 'X'}" |}.

Definition bad_search : ToolCall :=
  {| tc_id := "call_2"; tc_name := "search_knowledge_base";
     tc_arguments := "{invalid" |}.

Fixpoint copies (n : nat) (c : ascii) : string :=
  match n with
  | O => EmptyString
  | S n' => String c (copies n' c)
  end.

(** Arguments that are not JSON and on which [json.loads] raises
    [ValueError]: an open bracket, then an integer of 4301 digits. *)
Definition unreadable_search : ToolCall :=
  {| tc_id := "call_4"; tc_name := "search_knowledge_base";
     tc_arguments := String "["%char (copies 4301 "1"%char) |}.

(** Arguments that are not JSON and on which [json.loads] raises
    [RecursionError]: 2000 open brackets. *)
Definition nested_search : ToolCall :=
  {| tc_id := "call_5"; tc_name := "search_knowledge_base";
     tc_arguments := copies 2000 "["%char |}.

Definition too_many_digits : PyExn :=
  ValueError
    "Exceeds the limit (4300 digits) for integer string conversion: value has 4301 digits; use sys.set_int_max_str_digits() to increase the limit".

Definition search_frame : string :=
  dq "{'type': 'message', 'content': 'search for X'}".

Definition hello_frame : string :=
  dq "{'type': 'message', 'content': '  hello '}".

Definition results_x : json :=
  JObj [("results", JArr [JStr "Result for 'X' #1"; JStr "Result for 'X' #2"])].

Definition blank_response : Response :=
  {| resp_content := Some "   "; resp_tool_calls := None |}.

Definition shown_response : Response :=
  {| resp_content := Some "  Here is what I found.
"; resp_tool_calls := None |}.

Definition deferred_response : Response :=
  {| resp_content := Some " I'll fetch that for you. ";
     resp_tool_calls := Some [search_x] |}.

(** The insert of the third event fails. *)
Definition loses_third (e : Event) : bool :=
  negb (ev_sequence_num e =? 3)%nat.

Definition greeted : Task :=
  messages_append (user_turn "hello")
    (add_event (svc := scripted [inl "Connection error."] reliable)
       "user_message" (Some "user") (Some "hello") None None None fresh).

End Fixtures.

(** ** The tool schema and further vocabulary *)

Section Coverage.

Context {py : PyRuntime} {svc : Services}.

(** [TOOLS], the schema handed to the completion service. *)
Definition TOOLS : json :=
  JArr
    [JObj
       [("type", JStr "function");
        ("function",
         JObj
           [("name", JStr "fetch_user_data");
            ("description",
             JStr "Fetch detailed user profile and subscription information");
            ("parameters",
             JObj
               [("type", JStr "object");
                ("properties",
                 JObj
                   [("user_id",
                     JObj
                       [("type", JStr "string");
                        ("description",
                         JStr "The user ID to fetch data for")])]);
                ("required", JArr [JStr "user_id"])])])];
     JObj
       [("type", JStr "function");
        ("function",
         JObj
           [("name", JStr "search_knowledge_base");
            ("description",
             JStr "Search internal knowledge base for information about a topic");
            ("parameters",
             JObj
               [("type", JStr "object");
                ("properties",
                 JObj
                   [("query",
                     JObj
                       [("type", JStr "string");
                        ("description",
                         JStr "The search query or topic to look up")])]);
                ("required", JArr [JStr "query"])])])]].

Definition str_items (v : json) : list string :=
  match v with
  | JArr items =>
      flat_map (fun x => match x with JStr s => [s] | _ => [] end) items
  | _ => []
  end.

(** The name and the required keys that one entry of the schema declares. *)
Definition declared_tool (entry : json) : list (string * list string) :=
  match getitem entry "function" with
  | inr f =>
      match getitem f "name", getitem f "parameters" with
      | inr (JStr name), inr parameters =>
          match getitem parameters "required" with
          | inr required => [(name, str_items required)]
          | inl _ => []
          end
      | _, _ => []
      end
  | inl _ => []
  end.

Definition declared_tools : list (string * list string) :=
  match TOOLS with
  | JArr entries => flat_map declared_tool entries
  | _ => []
  end.

(** What [process_tool_call] answers for a name it does not know. *)
Definition unknown_tool_payload : string :=
  json_dumps (JObj [("error", JStr "Unknown tool")]).

(** The two events the first pass issues for a call when the sequence
    counter stands at [n]. *)
Definition call_events (sid : string) (n : nat) (tc : ToolCall) : list Event :=
  [{| ev_session_id := sid;
      ev_event_type := "tool_call";
      ev_role := None;
      ev_content := Some (json_dumps (first_pass_input tc));
      ev_tool_call_id := Some (tc_id tc);
      ev_tool_name := Some (tc_name tc);
      ev_tool_result := None;
      ev_sequence_num := n + 1 |};
   {| ev_session_id := sid;
      ev_event_type := "tool_result";
      ev_role := None;
      ev_content := None;
      ev_tool_call_id := Some (tc_id tc);
      ev_tool_name := Some (tc_name tc);
      ev_tool_result := Some (first_pass_result tc);
      ev_sequence_num := n + 1 + 1 |}].

Fixpoint tool_events (sid : string) (n : nat) (l : list ToolCall)
  : list Event :=
  match l with
  | [] => []
  | tc :: l' => call_events sid n tc ++ tool_events sid (n + 1 + 1) l'
  end.

Definition tool_use_frame (tc : ToolCall) : Frame :=
  FrameToolUse (tc_name tc) (first_pass_result tc).

(** The calls that get a tool turn: the arguments parse and the tool,
    run again on them, does not raise. *)
Definition second_pass_ok (tc : ToolCall) : bool :=
  match json_loads (tc_arguments tc) with
  | inr v =>
      match process_tool_call (tc_name tc) v with
      | inr _ => true
      | inl _ => false
      end
  | inl _ => false
  end.

(** The calls on which the first pass raises: [json.loads] raises on the
    arguments, and not a [JSONDecodeError]. *)
Definition escapes (tc : ToolCall) : bool :=
  match load_tool_input tc with
  | inl _ => true
  | inr _ => false
  end.

(** The calls that the first pass handles: those before the first one on
    which it raises. *)
Fixpoint handled_calls (l : list ToolCall) : list ToolCall :=
  match l with
  | [] => []
  | tc :: l' => if escapes tc then [] else tc :: handled_calls l'
  end.

(** Fields that only [add_event] and [send_json] change. *)
Definition same_log (t t' : Task) : Prop :=
  issued_events t' = issued_events t
  /\ events_table t' = events_table t
  /\ sent t' = sent t
  /\ event_sequence t' = event_sequence t
  /\ session_id t' = session_id t
  /\ sessions_table t' = sessions_table t
  /\ llm_calls t' = llm_calls t.

Definition is_text_frame (f : Frame) : bool :=
  match f with
  | FrameText _ => true
  | _ => false
  end.

Definition is_done_frame (f : Frame) : bool :=
  match f with
  | FrameDone => true
  | _ => false
  end.

Definition is_user_message (e : Event) : bool :=
  ev_event_type e =? "user_message".

(** The turns that [stream_llm_response] writes to the history. *)
Definition assistant_or_tool (m : Message) : Prop :=
  role m = "assistant" \/ role m = "tool".

(** The user messages among the frames, up to the first frame on which
    the receive loop raises: the frames are read in order and skipped ones
    leave nothing. These are the messages whose turn is run as long as no
    turn raises. *)
Fixpoint message_inputs (frames : list string) : list string :=
  match frames with
  | [] => []
  | frame :: rest =>
      match user_message_of frame with
      | Some user_input => user_input :: message_inputs rest
      | None => if ends_receive_loop frame then [] else message_inputs rest
      end
  end.

(** One turn after the other, until a turn raises. *)
Fixpoint run_turns (inputs : list string) (t : Task) : option Result :=
  match inputs with
  | [] => Some (Ok t)
  | user_input :: rest =>
      match run_turn user_input t with
      | Some (Ok t') => run_turns rest t'
      | Some (Exn e t') => Some (Exn e t')
      | None => None
      end
  end.

(** The store when the receive loop starts. *)
Definition connected (sid uid : string)
    (events0 : list Event) (sessions0 : list SessionRow) : Task :=
  add_event "session_start" None (Some sid) None None None
    {| session_id := sid;
       user_id := uid;
       event_sequence := 0;
       messages := [];
       events_table := events0;
       sessions_table := sessions0 ++ [active_row sid uid];
       sent := [];
       llm_calls := 0;
       issued_events := [];
       tool_invocations := [] |}.

Definition session_start_event (sid : string) : Event :=
  {| ev_session_id := sid;
     ev_event_type := "session_start";
     ev_role := None;
     ev_content := Some sid;
     ev_tool_call_id := None;
     ev_tool_name := None;
     ev_tool_result := None;
     ev_sequence_num := 1 |}.

Definition user_message_event (t : Task) (user_input : string) : Event :=
  {| ev_session_id := session_id t;
     ev_event_type := "user_message";
     ev_role := Some "user";
     ev_content := Some user_input;
     ev_tool_call_id := None;
     ev_tool_name := None;
     ev_tool_result := None;
     ev_sequence_num := event_sequence t + 1 |}.

(** The request for the summary and the summary that
    [handle_session_end] settles on. *)
Definition summary_request (t : Task) : list Message :=
  [user_turn
     (summary_prompt
        (PyStr.join "
"
           (flat_map narrative_line
              (select_events (session_id t) (events_table t)))))].

Definition final_summary (t : Task) : option string :=
  match completions_create (llm_calls t) (summary_request t) with
  | inr summary_response => resp_content summary_response
  | inl _ => Some "Summary generation failed"
  end.

Definition session_end_event (t : Task) : Event :=
  {| ev_session_id := session_id t;
     ev_event_type := "session_end";
     ev_role := None;
     ev_content := final_summary t;
     ev_tool_call_id := None;
     ev_tool_name := None;
     ev_tool_result := None;
     ev_sequence_num := event_sequence t + 1 |}.

(** The events that [stream_llm_response] issues. *)
Definition reply_event (e : Event) : Prop :=
  ev_event_type e = "assistant_message"
  \/ ev_event_type e = "tool_call"
  \/ ev_event_type e = "tool_result".

(** The events issued between the two ends of a connection. *)
Definition turn_event (e : Event) : Prop :=
  ev_event_type e = "user_message" \/ reply_event e.

Definition is_user_turn (m : Message) : bool := role m =? "user".

(** The [done] frame that ends a turn: there when the turn returned. *)
Definition closing (r : Result) : list Frame :=
  match r with
  | Ok _ => [FrameDone]
  | Exn _ _ => []
  end.

(** The turns that did not get to their [done] frame: the one that
    raised, if any. *)
Definition unfinished (r : Result) : nat :=
  match r with
  | Ok _ => 0
  | Exn _ _ => 1
  end.

(** Fields that a turn leaves alone. *)
Definition same_session (t t' : Task) : Prop :=
  session_id t' = session_id t
  /\ user_id t' = user_id t
  /\ sessions_table t' = sessions_table t.

End Coverage.

(** ** Further inputs *)

Module Inputs.

Import Reference Fixtures.

Definition alice_input : list (string * json) :=
  [("user_id", JStr "user_alice_0123456789")].

Definition hi_response : Response :=
  {| resp_content := Some " Hi. "; resp_tool_calls := None |}.

Definition answers_hi : Services := scripted [inr hi_response] reliable.

Definition provider_down : Services :=
  scripted [inl "Connection error."] reliable.

End Inputs.

(** ** Every operation is a sequence of primitive steps

    The composite operations only act on the store through [add_event],
    [send_json], [messages_extend], [call_tool], [create_completion] and
    [sessions_update]. A reflexive and transitive relation on stores that
    each primitive respects (for the event types and frames allowed by
    [ev_ok] and [fr_ok]) is therefore respected by the composites. *)

Section Closure.

Context {py : PyRuntime} {svc : Services}.

Variable R : Task -> Task -> Prop.
Variable ev_ok : string -> Prop.
Variable fr_ok : Frame -> Prop.

Hypothesis R_refl : forall t, R t t.
Hypothesis R_trans : forall t1 t2 t3, R t1 t2 -> R t2 t3 -> R t1 t3.
Hypothesis R_add_event :
  forall ty r c i n res t, ev_ok ty -> R t (add_event ty r c i n res t).
Hypothesis R_send_json : forall f t, fr_ok f -> R t (send_json f t).
Hypothesis R_messages_extend : forall ms t, R t (messages_extend ms t).
Hypothesis R_call_tool : forall n i t, R t (snd (call_tool n i t)).

Lemma closure_fold_left {A : Type} (f : Task -> A -> Task) (l : list A) :
  (forall t x, R t (f t x)) -> forall t, R t (fold_left f l t).
Proof.
  intros Hf. induction l as [|x l IH]; intros t; simpl.
  - apply R_refl.
  - eapply R_trans; [apply Hf | apply IH].
Qed.

Lemma closure_handle_text (response : Response) (t : Task) :
  ev_ok "assistant_message" -> (forall c, fr_ok (FrameText c)) ->
  R t (handle_text response t).
Proof.
  intros He Hf. unfold handle_text.
  assert (H1 : R t
    match resp_content response with
    | Some c =>
        if PyStr.truthy c then
          if PyStr.truthy (PyStr.strip c)
             && negb (PyStr.startswith (PyStr.strip c) "I'll")
          then send_json (FrameText (PyStr.strip c))
                 (add_event "assistant_message" (Some "assistant")
                    (Some (PyStr.strip c)) None None None t)
          else t
        else t
    | None => t
    end).
  { destruct (resp_content response) as [c|]; [|apply R_refl].
    destruct (PyStr.truthy c); [|apply R_refl].
    destruct (_ && _); [|apply R_refl].
    eapply R_trans; [apply R_add_event, He | apply R_send_json, Hf]. }
  cbv zeta. destruct (PyStr.truthy (response_text_of response)); [|exact H1].
  eapply R_trans; [exact H1 | apply R_messages_extend].
Qed.

Lemma closure_run_tool_call (tc : ToolCall) (t : Task) :
  ev_ok "tool_call" -> ev_ok "tool_result" ->
  (forall n r, fr_ok (FrameToolUse n r)) ->
  R t (store (run_tool_call tc t)).
Proof.
  intros Hc Hr Hf. unfold run_tool_call. cbv zeta.
  destruct (load_tool_input tc) as [e|tool_input]; [apply R_refl|].
  set (t1 := add_event "tool_call" _ _ _ _ _ t).
  pose proof (R_call_tool (tc_name tc) tool_input t1) as Htool.
  destruct (call_tool (tc_name tc) tool_input t1) as [r t2]. simpl in Htool.
  cbn [store].
  eapply R_trans; [apply R_add_event, Hc |].
  eapply R_trans; [exact Htool |].
  eapply R_trans; [apply R_add_event, Hr | apply R_send_json, Hf].
Qed.

Lemma run_tool_calls_cons (tc : ToolCall) (l : list ToolCall) (t : Task) :
  run_tool_calls (tc :: l) t =
  match run_tool_call tc t with
  | Ok t1 => run_tool_calls l t1
  | Exn e t1 => Exn e t1
  end.
Proof. reflexivity. Qed.

Lemma closure_run_tool_calls (l : list ToolCall) (t : Task) :
  ev_ok "tool_call" -> ev_ok "tool_result" ->
  (forall n r, fr_ok (FrameToolUse n r)) ->
  R t (store (run_tool_calls l t)).
Proof.
  intros Hc Hr Hf. revert t.
  induction l as [|tc l IH]; intros t.
  - apply R_refl.
  - rewrite run_tool_calls_cons.
    pose proof (closure_run_tool_call tc t Hc Hr Hf) as H1.
    destruct (run_tool_call tc t) as [t1|e t1]; cbn [store] in *.
    + eapply R_trans; [exact H1 | apply IH].
    + exact H1.
Qed.

Lemma closure_tool_result_turn (tc : ToolCall) (acc : list Message * Task) :
  R (snd acc) (snd (tool_result_turn tc acc)).
Proof.
  destruct acc as [ms t]. unfold tool_result_turn.
  destruct (json_loads (tc_arguments tc)) as [e|v]; [apply R_refl|].
  pose proof (R_call_tool (tc_name tc) v t) as Htool.
  destruct (call_tool (tc_name tc) v t) as [r t2].
  destruct r; exact Htool.
Qed.

Lemma closure_tool_results (l : list ToolCall) (acc : list Message * Task) :
  R (snd acc)
    (snd (fold_left (fun acc tc => tool_result_turn tc acc) l acc)).
Proof.
  revert acc. induction l as [|tc l IH]; intros acc; simpl.
  - apply R_refl.
  - eapply R_trans; [apply closure_tool_result_turn | apply IH].
Qed.

Lemma closure_handle_tool_calls (l : list ToolCall) (t : Task) :
  ev_ok "tool_call" -> ev_ok "tool_result" ->
  (forall n r, fr_ok (FrameToolUse n r)) ->
  R t (store (handle_tool_calls l t)).
Proof.
  intros Hc Hr Hf. unfold handle_tool_calls. cbv zeta.
  pose proof (closure_run_tool_calls l t Hc Hr Hf) as H1.
  destruct (run_tool_calls l t) as [t1|e t1]; cbn [store] in H1;
    [|exact H1].
  set (t2 := messages_append _ t1).
  pose proof (closure_tool_results l ([], t2)) as H3.
  destruct (fold_left _ l ([], t2)) as [ms t3]. simpl in H3. cbn [store].
  eapply R_trans; [exact H1 |].
  eapply R_trans; [apply R_messages_extend |].
  eapply R_trans; [exact H3 | apply R_messages_extend].
Qed.

Hypothesis ev_ok_assistant : ev_ok "assistant_message".
Hypothesis ev_ok_tool_call : ev_ok "tool_call".
Hypothesis ev_ok_tool_result : ev_ok "tool_result".
Hypothesis fr_ok_text : forall c, fr_ok (FrameText c).
Hypothesis fr_ok_tool_use : forall n r, fr_ok (FrameToolUse n r).

Lemma closure_on_response (response : Response) (t : Task) :
  R t (store (snd (on_response response t))).
Proof.
  unfold on_response. cbv zeta.
  pose proof (closure_handle_text response t ev_ok_assistant fr_ok_text) as H1.
  destruct (resp_tool_calls response) as [[|tc tcs]|]; simpl; try exact H1.
  eapply R_trans; [exact H1 |].
  apply closure_handle_tool_calls; assumption.
Qed.

Hypothesis R_create_completion :
  forall req t, R t (snd (create_completion req t)).
Hypothesis fr_ok_error : forall e, fr_ok (FrameError e).

Lemma closure_while_loop (fuel iteration : nat) (t : Task) (r : Result) :
  while_loop fuel iteration t = Some r -> R t (store r).
Proof.
  revert iteration t.
  induction fuel as [|fuel IH]; intros iteration t; cbn [while_loop].
  - discriminate.
  - destruct (iteration <? max_iterations)%nat.
    + set (req := if (iteration + 1 =? 1)%nat then _ else _).
      pose proof (R_create_completion req t) as H1.
      destruct (create_completion req t) as [[e|response] t1]; simpl in H1.
      * intros [= <-]. cbn [store].
        eapply R_trans; [exact H1 | apply R_send_json, fr_ok_error].
      * pose proof (closure_on_response response t1) as H2.
        destruct (on_response response t1) as [b [t2|e t2]];
          cbn [snd store] in H2.
        -- destruct b.
           ++ intros E. apply IH in E.
              eapply R_trans; [exact H1 |].
              eapply R_trans; [exact H2 | exact E].
           ++ intros [= <-]. cbn [store].
              eapply R_trans; [exact H1 | exact H2].
        -- assert (E : (if b then Some (Exn e t2) else Some (Exn e t2))
                       = Some (Exn e t2)) by (destruct b; reflexivity).
           destruct b; intros [= <-]; cbn [store];
             (eapply R_trans; [exact H1 | exact H2]).
    + intros [= <-]. apply R_refl.
Qed.

Hypothesis fr_ok_done : fr_ok FrameDone.
Hypothesis ev_ok_user : ev_ok "user_message".

Lemma closure_stream_llm_response (t : Task) (r : Result) :
  stream_llm_response t = Some r -> R t (store r).
Proof.
  unfold stream_llm_response.
  destruct (while_loop (S max_iterations) 0 t) as [[t1|e t1]|] eqn:E;
    [| |discriminate]; intros [= <-]; cbn [store];
    apply closure_while_loop in E; cbn [store] in E.
  - eapply R_trans; [exact E | apply R_send_json, fr_ok_done].
  - exact E.
Qed.

Lemma closure_run_turn (user_input : string) (t : Task) (r : Result) :
  run_turn user_input t = Some r -> R t (store r).
Proof.
  unfold run_turn. intros E. apply closure_stream_llm_response in E.
  eapply R_trans; [apply R_add_event, ev_ok_user |].
  eapply R_trans; [apply R_messages_extend | exact E].
Qed.

Lemma closure_on_frame (frame : string) (t : Task) :
  match on_frame frame t with
  | Continue t' => R t t'
  | Raise _ t' => R t t'
  | Stuck => True
  end.
Proof.
  unfold on_frame.
  destruct (json_loads frame) as [e|data]; [apply R_refl|].
  destruct (dict_get data "type" JNull) as [e|ty]; [apply R_refl|].
  destruct (is_message_type ty); [|apply R_refl].
  destruct (dict_get data "content" (JStr "")) as [e|v]; [apply R_refl|].
  destruct v; try apply R_refl.
  destruct (negb _); [apply R_refl|].
  destruct (run_turn (PyStr.strip s) t) as [[t1|e t1]|] eqn:E; [| |exact I];
    apply closure_run_turn in E; exact E.
Qed.

Lemma closure_receive_loop (frames : list string) (t t' : Task) (e : PyExn) :
  receive_loop frames t = Some (e, t') -> R t t'.
Proof.
  revert t. induction frames as [|frame frames IH]; intros t; simpl.
  - intros [= <- <-]. apply R_refl.
  - pose proof (closure_on_frame frame t) as H1.
    destruct (on_frame frame t) as [t1|e1 t1|].
    + intros E. eapply R_trans; [exact H1 | apply IH, E].
    + intros [= <- <-]. exact H1.
    + discriminate.
Qed.

Hypothesis ev_ok_session_end : ev_ok "session_end".
Hypothesis R_sessions_update : forall s t, R t (sessions_update s t).

Lemma closure_handle_session_end (t : Task) : R t (handle_session_end t).
Proof.
  unfold handle_session_end. cbv zeta.
  set (req := [user_turn _]).
  pose proof (R_create_completion req t) as H1.
  destruct (create_completion req t) as [r t1]; simpl in H1.
  eapply R_trans; [exact H1 |].
  eapply R_trans; [apply R_add_event, ev_ok_session_end |].
  apply R_sessions_update.
Qed.

End Closure.

(** ** Properties of the loop *)

Section Properties.

Context {py : PyRuntime} {svc : Services}.

(** *** Termination *)

(** The loop test fails after [max_iterations] passes, so [S max_iterations]
    evaluations of it are always enough. *)
Lemma while_loop_total (fuel iteration : nat) (t : Task) :
  max_iterations - iteration < fuel ->
  exists t', while_loop fuel iteration t = Some t'.
Proof.
  revert iteration t.
  induction fuel as [|fuel IH]; intros iteration t Hfuel; [lia|].
  cbn [while_loop].
  destruct (iteration <? max_iterations)%nat eqn:Hlt; [|eauto].
  apply Nat.ltb_lt in Hlt.
  destruct (create_completion _ t) as [[e|response] t1]; [eauto|].
  destruct (on_response response t1) as [[|] [t2|e2 t2]]; eauto.
  apply IH. lia.
Qed.

Lemma stream_llm_response_total (t : Task) :
  exists t', stream_llm_response t = Some t'.
Proof.
  unfold stream_llm_response.
  destruct (while_loop_total (S max_iterations) 0 t) as [[t1|e1 t1] E];
    [lia| |]; rewrite E; eauto.
Qed.

Lemma run_turn_total (user_input : string) (t : Task) :
  exists t', run_turn user_input t = Some t'.
Proof. unfold run_turn. apply stream_llm_response_total. Qed.

Lemma on_frame_not_stuck (frame : string) (t : Task) :
  on_frame frame t <> Stuck.
Proof.
  unfold on_frame.
  destruct (json_loads frame) as [e|data]; [discriminate|].
  destruct (dict_get data "type" JNull) as [e|ty]; [discriminate|].
  destruct (is_message_type ty); [|discriminate].
  destruct (dict_get data "content" (JStr "")) as [e|v]; [discriminate|].
  destruct v; try discriminate.
  destruct (negb _); [discriminate|].
  destruct (run_turn_total (PyStr.strip s) t) as [[t1|e t1] E];
    rewrite E; discriminate.
Qed.

Lemma receive_loop_total (frames : list string) (t : Task) :
  exists e t', receive_loop frames t = Some (e, t').
Proof.
  revert t. induction frames as [|frame frames IH]; intros t; simpl.
  - eauto.
  - pose proof (on_frame_not_stuck frame t) as H.
    destruct (on_frame frame t) as [t1|e1 t1|]; [apply IH | eauto | congruence].
Qed.

(** *** Round trips to the completion service *)

Lemma on_response_llm_calls (response : Response) (t : Task) :
  llm_calls (store (snd (on_response response t))) = llm_calls t.
Proof.
  apply (closure_on_response
           (fun t t' => llm_calls t' = llm_calls t)
           (fun _ => True) (fun _ => True)); try (intros; exact I);
    try reflexivity; intros; congruence.
Qed.

Lemma while_loop_llm_calls (fuel iteration : nat) (t : Task) (r : Result) :
  while_loop fuel iteration t = Some r ->
  llm_calls (store r) <= llm_calls t + (max_iterations - iteration).
Proof.
  revert iteration t.
  induction fuel as [|fuel IH]; intros iteration t; cbn [while_loop];
    [discriminate|].
  destruct (iteration <? max_iterations)%nat eqn:Hlt.
  - apply Nat.ltb_lt in Hlt.
    set (req := if (iteration + 1 =? 1)%nat then _ else _).
    assert (H1 : llm_calls (snd (create_completion req t)) = llm_calls t + 1)
      by reflexivity.
    destruct (create_completion req t) as [[e|response] t1]; simpl in H1.
    + intros [= <-]. unfold send_json; cbn [store llm_calls]. lia.
    + pose proof (on_response_llm_calls response t1) as H2.
      destruct (on_response response t1) as [[|] [t2|e2 t2]];
        cbn [snd store] in H2.
      * intros E. apply IH in E. lia.
      * intros [= <-]. cbn [store]. lia.
      * intros [= <-]. cbn [store]. lia.
      * intros [= <-]. cbn [store]. lia.
  - intros [= <-]. cbn [store]. lia.
Qed.

(** C4. One user turn makes at most 3 calls to the completion service,
    whatever the service answers (in particular when every answer asks for
    tools), and the loop always comes to an end. *)
Theorem stream_llm_response_at_most_3_calls (t : Task) :
  exists r, stream_llm_response t = Some r
            /\ llm_calls (store r) <= llm_calls t + 3.
Proof.
  destruct (stream_llm_response_total t) as [r E]. exists r. split; [exact E|].
  unfold stream_llm_response in E.
  destruct (while_loop (S max_iterations) 0 t) as [[t1|e1 t1]|] eqn:E1;
    [| |discriminate]; injection E as <-; apply while_loop_llm_calls in E1;
    unfold send_json; cbn [store llm_calls] in *; unfold max_iterations in E1;
    lia.
Qed.

(** *** The frames of one turn *)

Lemma sent_without_done_refl (t : Task) : sent_without_done t t.
Proof. exists []. rewrite app_nil_r. auto. Qed.

Lemma sent_without_done_trans (t1 t2 t3 : Task) :
  sent_without_done t1 t2 -> sent_without_done t2 t3 ->
  sent_without_done t1 t3.
Proof.
  intros [fs1 [E1 N1]] [fs2 [E2 N2]]. exists (fs1 ++ fs2). split.
  - rewrite E2, E1, app_assoc. reflexivity.
  - rewrite in_app_iff. tauto.
Qed.

Lemma sent_without_done_send (f : Frame) (t : Task) :
  f <> FrameDone -> sent_without_done t (send_json f t).
Proof.
  intros Hf. exists [f]. split; [reflexivity|].
  simpl. intros [H|[]]. congruence.
Qed.

Lemma sent_without_done_same (t t' : Task) :
  sent t' = sent t -> sent_without_done t t'.
Proof. intros E. exists []. rewrite E, app_nil_r. auto. Qed.

Lemma while_loop_sent (fuel iteration : nat) (t : Task) (r : Result) :
  while_loop fuel iteration t = Some r -> sent_without_done t (store r).
Proof.
  apply (closure_while_loop sent_without_done (fun _ => True)
           (fun f => f <> FrameDone));
    try exact I; try discriminate;
    try (intros; apply sent_without_done_same; reflexivity).
  - apply sent_without_done_trans.
  - intros; apply sent_without_done_send; assumption.
Qed.

(** A run of [stream_llm_response] that returns sends exactly one [done]
    frame, after every other frame of the turn, whether the loop ended by
    itself or on a provider error; a run that an exception leaves sends no
    [done] frame at all. *)
Lemma stream_llm_response_done (t : Task) :
  exists r fs,
    stream_llm_response t = Some r
    /\ ~ In FrameDone fs
    /\ sent (store r)
       = match r with
         | Ok _ => sent t ++ fs ++ [FrameDone]
         | Exn _ _ => sent t ++ fs
         end.
Proof.
  destruct (stream_llm_response_total t) as [r E].
  unfold stream_llm_response in E.
  destruct (while_loop (S max_iterations) 0 t) as [[t1|e1 t1]|] eqn:E1;
    [| |discriminate]; injection E as <-;
    destruct (while_loop_sent _ _ _ _ E1) as [fs [Es Hn]]; cbn [store] in Es.
  - exists (Ok (send_json FrameDone t1)), fs. split; [|split].
    + unfold stream_llm_response. rewrite E1. reflexivity.
    + exact Hn.
    + unfold send_json; cbn [store sent]. rewrite Es, app_assoc. reflexivity.
  - exists (Exn e1 t1), fs. split; [|split].
    + unfold stream_llm_response. rewrite E1. reflexivity.
    + exact Hn.
    + exact Es.
Qed.

(** *** The event log *)

Lemma log_extends_same (t t' : Task) :
  session_id t' = session_id t ->
  issued_events t' = issued_events t ->
  events_table t' = events_table t ->
  event_sequence t' = event_sequence t ->
  log_extends t t'.
Proof.
  intros Hs Hi He Hn. split; [exact Hs|]. exists [].
  rewrite Hi, He, Hn, !app_nil_r. simpl. auto.
Qed.

Lemma log_extends_trans (t1 t2 t3 : Task) :
  log_extends t1 t2 -> log_extends t2 t3 -> log_extends t1 t3.
Proof.
  intros [S1 [e1 (I1 & T1 & N1 & Q1 & F1)]] [S2 [e2 (I2 & T2 & N2 & Q2 & F2)]].
  split; [congruence|]. exists (e1 ++ e2). repeat split.
  - rewrite I2, I1, app_assoc. reflexivity.
  - rewrite T2, T1, filter_app, app_assoc. reflexivity.
  - rewrite map_app, length_app, seq_app, N1, N2, Q1. reflexivity.
  - rewrite Q2, Q1, length_app. lia.
  - apply Forall_app. split; [exact F1|].
    rewrite S1 in F2. exact F2.
Qed.

Lemma log_extends_add_event ty r c i n res (t : Task) :
  log_extends t (add_event ty r c i n res t).
Proof.
  split; [reflexivity|].
  eexists [_]. unfold add_event; cbn [issued_events events_table event_sequence].
  repeat split.
  - cbn [filter]. destruct (events_insert_ok _); [reflexivity|].
    rewrite app_nil_r. reflexivity.
  - cbn. rewrite Nat.add_1_r. reflexivity.
  - constructor; [reflexivity | constructor].
Qed.

Ltac log_same := intros; apply log_extends_same; reflexivity.

Lemma receive_loop_log (frames : list string) (t t' : Task) (e : PyExn) :
  receive_loop frames t = Some (e, t') -> log_extends t t'.
Proof.
  apply (closure_receive_loop log_extends (fun _ => True) (fun _ => True));
    try exact I; try (intros; exact I); try log_same.
  - apply log_extends_trans.
  - intros. apply log_extends_add_event.
Qed.

Lemma handle_session_end_log (t : Task) : log_extends t (handle_session_end t).
Proof.
  apply (closure_handle_session_end log_extends (fun _ => True));
    try exact I; try log_same.
  - apply log_extends_trans.
  - intros. apply log_extends_add_event.
Qed.

Lemma stream_llm_response_log (t : Task) (r : Result) :
  stream_llm_response t = Some r -> log_extends t (store r).
Proof.
  apply (closure_stream_llm_response log_extends (fun _ => True)
           (fun _ => True));
    try exact I; try (intros; exact I); try log_same.
  - apply log_extends_trans.
  - intros. apply log_extends_add_event.
Qed.

Lemma sorted_seq (a n : nat) : StronglySorted lt (seq a n).
Proof.
  revert a. induction n as [|n IH]; intros a; simpl; constructor.
  - apply IH.
  - apply Forall_forall. intros x Hx. apply in_seq in Hx. lia.
Qed.

Lemma sorted_map_filter {A : Type} (f : A -> nat) (p : A -> bool)
    (l : list A) :
  StronglySorted lt (map f l) -> StronglySorted lt (map f (filter p l)).
Proof.
  induction l as [|x l IH]; simpl; intros H; [constructor|].
  inversion H as [|? ? Hs Hf]; subst.
  destruct (p x); simpl; [|auto].
  constructor; [auto|].
  rewrite Forall_forall in *. intros y Hy. apply Hf.
  rewrite in_map_iff in *. destruct Hy as [z [Ez Hz]].
  apply filter_In in Hz. exists z. tauto.
Qed.

Lemma filter_all {A : Type} (p : A -> bool) (l : list A) :
  (forall x, In x l -> p x = true) -> filter p l = l.
Proof.
  induction l as [|x l IH]; simpl; intros H; [reflexivity|].
  rewrite (H x) by auto. f_equal. apply IH. auto.
Qed.

(** C3, as the code has it. On one connection [add_event] numbers the
    events it builds 1, 2, 3, ... without gap, in call order and whatever
    the number of tool iterations; the [events] table gains, after the rows
    it already had, exactly the events whose insert succeeded, in that
    order: their numbers increase strictly, and they are all of 1..n when no
    insert fails. *)
Theorem websocket_endpoint_sequence_numbers (sid uid : string)
    (events0 : list Event) (sessions0 : list SessionRow)
    (frames : list string) :
  exists t',
    websocket_endpoint sid uid events0 sessions0 frames = Some t'
    /\ map ev_sequence_num (issued_events t') = seq 1 (event_sequence t')
    /\ Forall (fun e => ev_session_id e = sid) (issued_events t')
    /\ events_table t'
       = events0 ++ filter events_insert_ok (issued_events t')
    /\ StronglySorted lt
         (map ev_sequence_num (filter events_insert_ok (issued_events t')))
    /\ ((forall e, In e (issued_events t') -> events_insert_ok e = true) ->
        exists rows,
          events_table t' = events0 ++ rows
          /\ map ev_sequence_num rows = seq 1 (event_sequence t')).
Proof.
  unfold websocket_endpoint.
  set (t0 := {| session_id := sid; user_id := uid; event_sequence := 0;
                messages := []; events_table := events0;
                sessions_table := sessions0 ++ [active_row sid uid];
                sent := []; llm_calls := 0; issued_events := [];
                tool_invocations := [] |}).
  set (t1 := add_event "session_start" None (Some sid) None None None t0).
  destruct (receive_loop_total frames t1) as [e [t2 E]]. rewrite E.
  exists (handle_session_end t2). split; [reflexivity|].
  assert (H : log_extends t0 (handle_session_end t2)).
  { eapply log_extends_trans; [apply log_extends_add_event|].
    eapply log_extends_trans; [eapply receive_loop_log, E|].
    apply handle_session_end_log. }
  destruct H as [Hs [evs (Hi & Ht & Hn & Hq & Hf)]].
  cbn [issued_events events_table event_sequence session_id t0] in *.
  cbn [app] in Hi. rewrite Hi, Hq. cbn [Nat.add].
  repeat split; try assumption.
  - apply sorted_map_filter. rewrite Hn. apply sorted_seq.
  - intros Hall. exists evs. split; [|exact Hn].
    rewrite Ht, filter_all by exact Hall. reflexivity.
Qed.

(** *** What an operation adds to the store *)

Section Emits.

Variable Pe : Event -> Prop.
Variable Pf : Frame -> Prop.

Lemma emits_refl (t : Task) : emits Pe Pf t t.
Proof.
  exists [], [], [], []. rewrite !app_nil_r. repeat split; constructor.
Qed.

Lemma emits_trans (t1 t2 t3 : Task) :
  emits Pe Pf t1 t2 -> emits Pe Pf t2 t3 -> emits Pe Pf t1 t3.
Proof.
  intros (e1 & r1 & f1 & m1 & I1 & T1 & S1 & M1 & A1 & B1 & C1)
         (e2 & r2 & f2 & m2 & I2 & T2 & S2 & M2 & A2 & B2 & C2).
  exists (e1 ++ e2), (r1 ++ r2), (f1 ++ f2), (m1 ++ m2).
  rewrite I2, I1, T2, T1, S2, S1, M2, M1, <- !app_assoc.
  repeat split; apply Forall_app; auto.
Qed.

Lemma emits_add_event ty r c i n res (t : Task) :
  (forall e, ev_event_type e = ty -> Pe e) ->
  emits Pe Pf t (add_event ty r c i n res t).
Proof.
  intros H. unfold add_event.
  set (e := {| ev_session_id := session_id t; ev_event_type := ty;
               ev_role := r; ev_content := c; ev_tool_call_id := i;
               ev_tool_name := n; ev_tool_result := res;
               ev_sequence_num := event_sequence t + 1 |}).
  assert (He : Pe e) by (apply H; reflexivity).
  exists [e], (if events_insert_ok e then [e] else []), [], [].
  cbn [issued_events events_table sent messages]. rewrite !app_nil_r.
  repeat split; auto.
  - destruct (events_insert_ok e); [reflexivity|].
    rewrite app_nil_r. reflexivity.
  - destruct (events_insert_ok e); auto.
Qed.

Lemma emits_send_json (f : Frame) (t : Task) :
  Pf f -> emits Pe Pf t (send_json f t).
Proof.
  intros H. exists [], [], [f], [].
  unfold send_json; cbn [issued_events events_table sent messages].
  rewrite !app_nil_r. repeat split; auto.
Qed.

Lemma emits_messages_extend (ms : list Message) (t : Task) :
  emits Pe Pf t (messages_extend ms t).
Proof.
  exists [], [], [], ms.
  unfold messages_extend; cbn [issued_events events_table sent messages].
  rewrite !app_nil_r. repeat split; auto.
Qed.

Lemma emits_call_tool (n : string) (i : json) (t : Task) :
  emits Pe Pf t (snd (call_tool n i t)).
Proof.
  exists [], [], [], [].
  unfold call_tool; cbn [snd issued_events events_table sent messages].
  rewrite !app_nil_r. repeat split; auto.
Qed.

Lemma emits_handle_tool_calls (l : list ToolCall) (t : Task) :
  (forall e, ev_event_type e = "tool_call" -> Pe e) ->
  (forall e, ev_event_type e = "tool_result" -> Pe e) ->
  (forall n r, Pf (FrameToolUse n r)) ->
  emits Pe Pf t (store (handle_tool_calls l t)).
Proof.
  intros Hc Hr Hf.
  apply (closure_handle_tool_calls (emits Pe Pf)
           (fun ty => forall e, ev_event_type e = ty -> Pe e) Pf);
    auto using emits_refl, emits_add_event, emits_send_json,
               emits_messages_extend, emits_call_tool.
  apply emits_trans.
Qed.

End Emits.

Lemma on_response_emits (Pe : Event -> Prop) (Pf : Frame -> Prop)
    (response : Response) (t : Task) :
  (forall e, ev_event_type e = "assistant_message" -> Pe e) ->
  (forall e, ev_event_type e = "tool_call" -> Pe e) ->
  (forall e, ev_event_type e = "tool_result" -> Pe e) ->
  (forall c, Pf (FrameText c)) ->
  (forall n r, Pf (FrameToolUse n r)) ->
  emits Pe Pf t (store (snd (on_response response t))).
Proof.
  intros Ha Hc Hr Ht Hu.
  apply (closure_on_response (emits Pe Pf)
           (fun ty => forall e, ev_event_type e = ty -> Pe e) Pf);
    auto using emits_refl, emits_add_event, emits_send_json,
               emits_messages_extend, emits_call_tool.
  apply emits_trans.
Qed.

(** The frames of the loop: text and tool frames, then at most one error
    frame, which ends it; none when an exception leaves the loop. *)
Lemma while_loop_frames (fuel iteration : nat) (t : Task) (r : Result) :
  while_loop fuel iteration t = Some r ->
  exists body tail,
    sent (store r) = sent t ++ body ++ tail
    /\ Forall content_frame body
    /\ match r with
       | Ok _ => tail = [] \/ exists msg, tail = [FrameError msg]
       | Exn _ _ => tail = []
       end.
Proof.
  revert iteration t.
  induction fuel as [|fuel IH]; intros iteration t; cbn [while_loop];
    [discriminate|].
  destruct (iteration <? max_iterations)%nat.
  - set (req := if (iteration + 1 =? 1)%nat then _ else _).
    assert (H1 : sent (snd (create_completion req t)) = sent t) by reflexivity.
    destruct (create_completion req t) as [[e|response] t1]; cbn [snd] in H1.
    + intros [= <-]. exists [], [FrameError e].
      unfold send_json; cbn [store sent]. rewrite H1. eauto.
    + destruct (on_response_emits (fun _ => True) content_frame response t1)
        as (_ & _ & fs & _ & _ & _ & S & _ & _ & _ & F);
        try exact (fun _ _ => I); try (intros; exact I).
      destruct (on_response response t1) as [[|] [t2|e2 t2]];
        cbn [snd store] in S.
      * intros E. destruct (IH _ _ E) as (body & tail & S2 & F2 & T2).
        exists (fs ++ body), tail. rewrite S2, S, H1, <- !app_assoc.
        repeat split; auto. apply Forall_app. auto.
      * intros [= <-]. exists fs, []. cbn [store].
        rewrite S, H1, app_nil_r. auto.
      * intros [= <-]. exists fs, []. cbn [store].
        rewrite S, H1, app_nil_r. auto.
      * intros [= <-]. exists fs, []. cbn [store].
        rewrite S, H1, app_nil_r. auto.
  - intros [= <-]. exists [], []. cbn [store]. rewrite app_nil_r. auto.
Qed.

(** The frames of a turn: those of the loop, then [done] when the loop
    returned. *)
Lemma turn_frames (t : Task) (r : Result) :
  stream_llm_response t = Some r ->
  exists body tail,
    Forall content_frame body
    /\ match r with
       | Ok t' =>
           sent t' = sent t ++ body ++ tail ++ [FrameDone]
           /\ (tail = [] \/ exists msg, tail = [FrameError msg])
       | Exn _ t' => sent t' = sent t ++ body /\ tail = []
       end.
Proof.
  unfold stream_llm_response.
  destruct (while_loop (S max_iterations) 0 t) as [[t1|e1 t1]|] eqn:E;
    [| |discriminate]; intros [= <-];
    destruct (while_loop_frames _ _ _ _ E) as (b & tl & S & F & T);
    cbn [store] in S; exists b, tl; split; auto.
  - unfold send_json; cbn [sent]. rewrite S, <- !app_assoc. auto.
  - subst tl. rewrite app_nil_r in S. auto.
Qed.

(** *** Assistant text *)

Lemma strip_nonempty (c : string) :
  PyStr.strip c <> "" -> PyStr.truthy c = true.
Proof.
  intros H. destruct c as [|a c]; [|reflexivity].
  exfalso. apply H. reflexivity.
Qed.

Lemma truthy_nonempty (s : string) : s <> "" -> PyStr.truthy s = true.
Proof. intros H. destruct s; [congruence | reflexivity]. Qed.

Lemma handle_text_shown (response : Response) (t : Task) (c : string) :
  resp_content response = Some c ->
  PyStr.strip c <> "" ->
  PyStr.startswith (PyStr.strip c) "I'll" = false ->
  handle_text response t
  = messages_append (assistant_text_turn (PyStr.strip c))
      (send_json (FrameText (PyStr.strip c))
         (add_event "assistant_message" (Some "assistant")
            (Some (PyStr.strip c)) None None None t)).
Proof.
  intros Hc Hs Hp. unfold handle_text, response_text_of.
  rewrite Hc, (strip_nonempty c Hs), (truthy_nonempty _ Hs), Hp.
  reflexivity.
Qed.

Lemma handle_text_suppressed (response : Response) (t : Task) (c : string) :
  resp_content response = Some c ->
  PyStr.strip c <> "" ->
  PyStr.startswith (PyStr.strip c) "I'll" = true ->
  handle_text response t
  = messages_append (assistant_text_turn (PyStr.strip c)) t.
Proof.
  intros Hc Hs Hp. unfold handle_text, response_text_of.
  rewrite Hc, (strip_nonempty c Hs), (truthy_nonempty _ Hs), Hp.
  reflexivity.
Qed.

(** What the tool part adds after the text part. *)
Lemma on_response_after_text (Pe : Event -> Prop) (Pf : Frame -> Prop)
    (response : Response) (t : Task) :
  (forall e, ev_event_type e = "tool_call" -> Pe e) ->
  (forall e, ev_event_type e = "tool_result" -> Pe e) ->
  (forall n r, Pf (FrameToolUse n r)) ->
  emits Pe Pf (handle_text response t) (store (snd (on_response response t))).
Proof.
  intros Hc Hr Hf. unfold on_response. cbv zeta.
  destruct (resp_tool_calls response) as [[|tc tcs]|]; cbn [snd store];
    try apply emits_refl.
  apply emits_handle_tool_calls; assumption.
Qed.

(** C1, as the code has it. When the text of a completion response is
    non-empty after trimming, an assistant turn with the trimmed text is
    appended to the history; the [assistant_message] event and the [text]
    frame, both with the trimmed text, are produced when that text does not
    start with [I'll]. *)
Theorem assistant_text_recorded (response : Response) (t : Task) (c : string) :
  resp_content response = Some c ->
  PyStr.strip c <> "" ->
  let text := PyStr.strip c in
  let t' := store (snd (on_response response t)) in
  (exists ms, messages t' = messages t ++ assistant_text_turn text :: ms)
  /\ (PyStr.startswith text "I'll" = false ->
      (exists evs,
         issued_events t'
         = issued_events t ++ assistant_message_event t text :: evs)
      /\ (events_insert_ok (assistant_message_event t text) = true ->
          exists rows,
            events_table t'
            = events_table t ++ assistant_message_event t text :: rows)
      /\ (exists fs, sent t' = sent t ++ FrameText text :: fs)).
Proof.
  intros Hc Hs text t'. subst text.
  destruct (on_response_after_text (fun _ => True) (fun _ => True) response t)
    as (evs & rows & fs & ms & I & T & S & M & _); auto.
  fold t' in I, T, S, M. split.
  - exists ms. rewrite M.
    destruct (PyStr.startswith (PyStr.strip c) "I'll") eqn:Hp.
    + rewrite (handle_text_suppressed response t c Hc Hs Hp).
      unfold messages_append, messages_extend; cbn [messages].
      rewrite <- app_assoc. reflexivity.
    + rewrite (handle_text_shown response t c Hc Hs Hp).
      unfold messages_append, messages_extend, send_json, add_event;
        cbn [messages].
      rewrite <- app_assoc. reflexivity.
  - intros Hp. rewrite (handle_text_shown response t c Hc Hs Hp) in I, T, S.
    unfold messages_append, messages_extend, send_json, add_event in I, T, S.
    cbn [issued_events events_table sent] in I, T, S.
    fold (assistant_message_event t (PyStr.strip c)) in I, T.
    repeat split.
    + exists evs. rewrite I, <- app_assoc. reflexivity.
    + intros Hok. rewrite Hok in T. exists rows.
      rewrite T, <- app_assoc. reflexivity.
    + exists fs. rewrite S, <- app_assoc. reflexivity.
Qed.

(** C10. A response text that, once trimmed, is non-empty and starts with
    [I'll] becomes an assistant turn of the history, but no
    [assistant_message] event is issued or stored for it and no [text] frame
    is sent: the history given back to the completion service holds a turn
    that neither the event log nor the client stream shows. *)
Theorem deferred_text_only_in_history
    (response : Response) (t : Task) (c : string) :
  resp_content response = Some c ->
  PyStr.strip c <> "" ->
  PyStr.startswith (PyStr.strip c) "I'll" = true ->
  let t' := store (snd (on_response response t)) in
  exists evs rows fs ms,
    messages t' = messages t ++ assistant_text_turn (PyStr.strip c) :: ms
    /\ issued_events t' = issued_events t ++ evs
    /\ events_table t' = events_table t ++ rows
    /\ sent t' = sent t ++ fs
    /\ Forall (fun e => ev_event_type e <> "assistant_message") evs
    /\ Forall (fun e => ev_event_type e <> "assistant_message") rows
    /\ Forall (fun f => forall x, f <> FrameText x) fs.
Proof.
  intros Hc Hs Hp t'.
  destruct (on_response_after_text
              (fun e => ev_event_type e <> "assistant_message")
              (fun f => forall x, f <> FrameText x) response t)
    as (evs & rows & fs & ms & I & T & S & M & Fe & Fr & Ff);
    try (intros e He; rewrite He; discriminate); try discriminate.
  fold t' in I, T, S, M.
  rewrite (handle_text_suppressed response t c Hc Hs Hp) in I, T, S, M.
  unfold messages_append, messages_extend in I, T, S, M.
  cbn [issued_events events_table sent messages] in I, T, S, M.
  exists evs, rows, fs, ms. repeat split; try assumption.
  rewrite M, <- app_assoc. reflexivity.
Qed.

(** *** Tool calls *)

Lemma load_tool_input_first_pass (tc : ToolCall) (v : json) :
  load_tool_input tc = inr v -> first_pass_input tc = v.
Proof.
  unfold load_tool_input, first_pass_input.
  destruct (json_loads (tc_arguments tc)) as [e|w]; [|congruence].
  destruct (is_decode_error e); congruence.
Qed.

(** The first pass gets through the calls that do not escape. *)
Lemma run_tool_call_handled (tc : ToolCall) (t : Task) :
  escapes tc = false -> exists t', run_tool_call tc t = Ok t'.
Proof.
  unfold escapes, run_tool_call. cbv zeta.
  destruct (load_tool_input tc) as [e|v]; [discriminate|]. intros _.
  destruct (call_tool (tc_name tc) v _) as [r t2]. eauto.
Qed.

(** On the others it raises what [json.loads] raised, before anything is
    recorded. *)
Lemma run_tool_call_escapes (tc : ToolCall) (t : Task) :
  escapes tc = true ->
  exists e,
    json_loads (tc_arguments tc) = inl e
    /\ is_decode_error e = false
    /\ run_tool_call tc t = Exn e t.
Proof.
  unfold escapes, run_tool_call, load_tool_input. cbv zeta.
  destruct (json_loads (tc_arguments tc)) as [e|v]; [|discriminate].
  destruct (is_decode_error e) eqn:D; [discriminate|]. eauto.
Qed.

Lemma run_tool_call_result (tc : ToolCall) (t : Task) :
  match run_tool_call tc t with
  | Ok _ => escapes tc = false
  | Exn _ t' => escapes tc = true /\ t' = t
  end.
Proof.
  destruct (escapes tc) eqn:E.
  - destruct (run_tool_call_escapes tc t E) as (e & _ & _ & ->). auto.
  - destruct (run_tool_call_handled tc t E) as [t' ->]. reflexivity.
Qed.

Ltac first_pass_of H :=
  unfold run_tool_call in H; cbv zeta in H;
  match type of H with
  | context [load_tool_input ?tc] =>
      let E := fresh "E" in
      destruct (load_tool_input tc) as [?|?] eqn:E; [discriminate H|];
      apply load_tool_input_first_pass in E;
      unfold tool_call_event, tool_result_event, first_pass_result,
        error_payload;
      rewrite E;
      unfold call_tool, send_json, add_event in H; cbn in H;
      injection H as <-
  end.

Lemma run_tool_call_issued (tc : ToolCall) (t t' : Task) :
  run_tool_call tc t = Ok t' ->
  issued_events t'
  = issued_events t ++ [tool_call_event t tc; tool_result_event t tc].
Proof.
  intros H. first_pass_of H. cbn. rewrite <- app_assoc. reflexivity.
Qed.

Lemma run_tool_call_table (tc : ToolCall) (t t' : Task) :
  run_tool_call tc t = Ok t' ->
  events_table t'
  = events_table t
    ++ filter events_insert_ok [tool_call_event t tc; tool_result_event t tc].
Proof.
  intros H. first_pass_of H. cbn.
  repeat match goal with
         | |- context [events_insert_ok ?e] => destruct (events_insert_ok e)
         end;
    rewrite <- ?app_assoc, ?app_nil_r; reflexivity.
Qed.

Lemma run_tool_call_sent (tc : ToolCall) (t t' : Task) :
  run_tool_call tc t = Ok t' ->
  sent t' = sent t ++ [FrameToolUse (tc_name tc) (first_pass_result tc)].
Proof.
  intros H. first_pass_of H. reflexivity.
Qed.

Lemma run_tool_call_invocations (tc : ToolCall) (t t' : Task) :
  run_tool_call tc t = Ok t' ->
  tool_invocations t'
  = tool_invocations t ++ [(tc_name tc, first_pass_input tc)].
Proof.
  intros H. first_pass_of H. reflexivity.
Qed.

Lemma run_tool_call_messages (tc : ToolCall) (t : Task) :
  messages (store (run_tool_call tc t)) = messages t.
Proof.
  unfold run_tool_call. cbv zeta.
  destruct (load_tool_input tc) as [e|v]; reflexivity.
Qed.

Lemma tool_result_turn_eq (tc : ToolCall) (ms : list Message) (t : Task) :
  tool_result_turn tc (ms, t)
  = (ms ++ second_pass_turn tc,
     match json_loads (tc_arguments tc) with
     | inr v => snd (call_tool (tc_name tc) v t)
     | inl _ => t
     end).
Proof.
  unfold tool_result_turn, second_pass_turn.
  destruct (json_loads (tc_arguments tc)) as [e|v];
    [rewrite app_nil_r; reflexivity|].
  unfold call_tool. cbn [snd].
  destruct (process_tool_call (tc_name tc) v);
    [rewrite app_nil_r|]; reflexivity.
Qed.

(** A tool call on whose arguments [json.loads] raises [JSONDecodeError]
    raises nothing: the first pass runs on the empty argument set, issues
    the [tool_call] event with the serialised empty set as content (stored
    when its insert succeeds), executes the tool on it, issues the
    [tool_result] event and sends the [tool_use] frame; the second pass
    skips the call. *)
Lemma malformed_arguments_fall_back (tc : ToolCall) (t : Task) :
  json_loads (tc_arguments tc) = inl JSONDecodeError ->
  let call_event :=
    {| ev_session_id := session_id t;
       ev_event_type := "tool_call";
       ev_role := None;
       ev_content := Some (json_dumps (JObj []));
       ev_tool_call_id := Some (tc_id tc);
       ev_tool_name := Some (tc_name tc);
       ev_tool_result := None;
       ev_sequence_num := event_sequence t + 1 |} in
  let tool_result :=
    match process_tool_call (tc_name tc) (JObj []) with
    | inr s => s
    | inl e => json_dumps (JObj [("error", JStr (exn_str e))])
    end in
  exists t',
    run_tool_call tc t = Ok t'
    /\ (exists result_event,
          issued_events t' = issued_events t ++ [call_event; result_event]
          /\ events_table t'
             = events_table t
               ++ filter events_insert_ok [call_event; result_event]
          /\ ev_event_type result_event = "tool_result"
          /\ ev_tool_result result_event = Some tool_result)
    /\ tool_invocations t' = tool_invocations t ++ [(tc_name tc, JObj [])]
    /\ sent t' = sent t ++ [FrameToolUse (tc_name tc) tool_result]
    /\ forall acc, tool_result_turn tc acc = acc.
Proof.
  intros Hbad call_event tool_result.
  assert (Hin : first_pass_input tc = JObj [])
    by (unfold first_pass_input; rewrite Hbad; reflexivity).
  assert (Hres : first_pass_result tc = tool_result)
    by (unfold first_pass_result; rewrite Hin; reflexivity).
  assert (Hev : tool_call_event t tc = call_event)
    by (unfold tool_call_event; rewrite Hin; reflexivity).
  assert (Hesc : escapes tc = false)
    by (unfold escapes, load_tool_input; rewrite Hbad; reflexivity).
  destruct (run_tool_call_handled tc t Hesc) as [t' E].
  exists t'. split; [exact E|]. split; [|split; [|split]].
  - exists (tool_result_event t tc).
    rewrite (run_tool_call_issued _ _ _ E), (run_tool_call_table _ _ _ E), Hev.
    repeat split. cbn. rewrite Hres. reflexivity.
  - rewrite (run_tool_call_invocations _ _ _ E), Hin. reflexivity.
  - rewrite (run_tool_call_sent _ _ _ E), Hres. reflexivity.
  - intros [ms t2]. rewrite tool_result_turn_eq.
    unfold second_pass_turn. rewrite Hbad, app_nil_r. reflexivity.
Qed.

(** The two passes over the calls of one response. *)

Lemma run_tool_calls_result (l : list ToolCall) (t : Task) :
  match run_tool_calls l t with
  | Ok _ => existsb escapes l = false
  | Exn _ _ => existsb escapes l = true
  end.
Proof.
  revert t. induction l as [|tc l IH]; intros t; [reflexivity|].
  rewrite run_tool_calls_cons. cbn [existsb].
  pose proof (run_tool_call_result tc t) as H.
  destruct (run_tool_call tc t) as [t1|e t1].
  - rewrite H. apply IH.
  - destruct H as [-> _]. reflexivity.
Qed.

Lemma handled_calls_all (l : list ToolCall) :
  existsb escapes l = false -> handled_calls l = l.
Proof.
  induction l as [|tc l IH]; cbn [existsb handled_calls]; [reflexivity|].
  destruct (escapes tc); [discriminate|]. cbn [orb].
  intros H. rewrite IH by exact H. reflexivity.
Qed.

Lemma existsb_escapes_false (l : list ToolCall) :
  (forall tc, In tc l -> escapes tc = false) -> existsb escapes l = false.
Proof.
  intros H. destruct (existsb escapes l) eqn:E; [|reflexivity].
  apply existsb_exists in E. destruct E as (tc & Hin & Hesc).
  rewrite (H tc Hin) in Hesc. discriminate.
Qed.

Lemma run_tool_calls_handled (l : list ToolCall) (t : Task) :
  existsb escapes l = false -> exists t', run_tool_calls l t = Ok t'.
Proof.
  intros H. pose proof (run_tool_calls_result l t) as R.
  destruct (run_tool_calls l t) as [t'|e t']; [eauto | congruence].
Qed.

Lemma first_pass_messages (l : list ToolCall) (t : Task) :
  messages (store (run_tool_calls l t)) = messages t.
Proof.
  revert t. induction l as [|tc l IH]; intros t; [reflexivity|].
  rewrite run_tool_calls_cons.
  pose proof (run_tool_call_messages tc t) as H.
  destruct (run_tool_call tc t) as [t1|e t1]; cbn [store] in *.
  - rewrite IH. exact H.
  - exact H.
Qed.


Lemma second_pass_eq (l : list ToolCall) (ms : list Message) (t : Task) :
  let r := fold_left (fun acc tc => tool_result_turn tc acc) l (ms, t) in
  fst r = ms ++ flat_map second_pass_turn l
  /\ messages (snd r) = messages t
  /\ tool_invocations (snd r)
     = tool_invocations t ++ flat_map second_pass_invocation l.
Proof.
  revert ms t. induction l as [|tc l IH]; intros ms t; cbn [fold_left flat_map].
  - rewrite !app_nil_r. auto.
  - rewrite tool_result_turn_eq.
    specialize (IH (ms ++ second_pass_turn tc)
                   match json_loads (tc_arguments tc) with
                   | inr v => snd (call_tool (tc_name tc) v t)
                   | inl _ => t
                   end).
    cbv zeta in IH. destruct IH as (H1 & H2 & H3).
    rewrite H1, H2, H3, <- app_assoc. unfold second_pass_invocation.
    destruct (json_loads (tc_arguments tc)) as [e|v]; auto.
    unfold call_tool; cbn [snd messages tool_invocations].
    rewrite <- app_assoc. auto.
Qed.

(** What the history gains from the tool calls of one response: the
    assistant turn with all the calls, then the turns of the second pass;
    nothing when the first pass raises. *)
Lemma handle_tool_calls_history (l : list ToolCall) (t : Task) :
  messages (store (handle_tool_calls l t))
  = if existsb escapes l
    then messages t
    else messages t ++ assistant_calls_turn l :: flat_map second_pass_turn l.
Proof.
  unfold handle_tool_calls. cbv zeta.
  pose proof (run_tool_calls_result l t) as R.
  pose proof (first_pass_messages l t) as M.
  destruct (run_tool_calls l t) as [t1|e t1]; rewrite R; cbn [store] in *;
    [|exact M].
  set (t2 := messages_append _ t1).
  pose proof (second_pass_eq l [] t2) as H. cbv zeta in H.
  destruct (fold_left _ l ([], t2)) as [ms t3]. cbn [fst snd] in H.
  destruct H as (H1 & H2 & _).
  unfold messages_extend; cbn [messages]. rewrite H1, H2.
  unfold t2, messages_append, messages_extend; cbn [messages].
  rewrite M, <- app_assoc. reflexivity.
Qed.


Lemma handle_tool_calls_handled (l : list ToolCall) (t : Task) :
  existsb escapes l = false -> exists t', handle_tool_calls l t = Ok t'.
Proof.
  intros H. unfold handle_tool_calls. cbv zeta.
  destruct (run_tool_calls_handled l t H) as [t1 ->].
  destruct (fold_left _ l _) as [ms t3]. eauto.
Qed.

(** When every call parses and executes, each gets its tool turn. *)
Lemma second_pass_complete (l : list ToolCall) :
  (forall tc, In tc l ->
     exists v r, json_loads (tc_arguments tc) = inr v
                 /\ process_tool_call (tc_name tc) v = inr r) ->
  flat_map second_pass_turn l
  = map (fun tc => tool_turn (tc_id tc) (first_pass_result tc)) l.
Proof.
  induction l as [|tc l IH]; intros H; cbn [flat_map map]; [reflexivity|].
  rewrite IH by (intros; apply H; right; assumption). f_equal.
  destruct (H tc (or_introl eq_refl)) as (v & r & Hv & Hr).
  unfold second_pass_turn, first_pass_result, first_pass_input.
  rewrite Hv, Hr. reflexivity.
Qed.


(** *** Provider failure *)

(** The loop from an iteration whose completion call raises. *)
Lemma while_loop_on_failure
    (fuel iteration : nat) (t : Task) (msg : string) :
  iteration < max_iterations ->
  completions_create (llm_calls t)
    (if (iteration + 1 =? 1)%nat
     then user_turn system_prompt :: messages t
     else messages t) = inl msg ->
  while_loop (S fuel) iteration t
  = Some (Ok (send_json (FrameError msg)
                (snd (create_completion
                        (if (iteration + 1 =? 1)%nat
                         then user_turn system_prompt :: messages t
                         else messages t) t)))).
Proof.
  intros Hlt Hfail. cbn [while_loop].
  apply Nat.ltb_lt in Hlt. rewrite Hlt.
  unfold create_completion. rewrite Hfail. reflexivity.
Qed.

(** C6. When the completion call of an iteration raises, the rest of the
    loop is: that one call, one [error] frame with the message of the
    exception, and the exit. No event is issued or stored, the history and
    the session row are untouched, no second call is made, and the loop
    returns normally; when the call is the first of the turn,
    [stream_llm_response] as a whole sends the [error] frame and the [done]
    frame and returns to the receive loop. *)
Theorem provider_failure_ends_turn
    (fuel iteration : nat) (t : Task) (msg : string) :
  iteration < max_iterations ->
  completions_create (llm_calls t)
    (if (iteration + 1 =? 1)%nat
     then user_turn system_prompt :: messages t
     else messages t) = inl msg ->
  (exists t',
     while_loop (S fuel) iteration t = Some (Ok t')
     /\ sent t' = sent t ++ [FrameError msg]
     /\ llm_calls t' = llm_calls t + 1
     /\ issued_events t' = issued_events t
     /\ events_table t' = events_table t
     /\ event_sequence t' = event_sequence t
     /\ messages t' = messages t
     /\ tool_invocations t' = tool_invocations t
     /\ sessions_table t' = sessions_table t)
  /\ (iteration = 0 ->
      exists t'',
        stream_llm_response t = Some (Ok t'')
        /\ sent t'' = sent t ++ [FrameError msg; FrameDone]
        /\ llm_calls t'' = llm_calls t + 1
        /\ issued_events t'' = issued_events t
        /\ events_table t'' = events_table t
        /\ messages t'' = messages t
        /\ sessions_table t'' = sessions_table t).
Proof.
  intros Hlt Hfail. split.
  - rewrite (while_loop_on_failure fuel iteration t msg Hlt Hfail).
    eexists. split; [reflexivity|]. repeat split.
  - intros ->. unfold stream_llm_response.
    rewrite (while_loop_on_failure max_iterations 0 t msg Hlt Hfail).
    eexists. split; [reflexivity|].
    unfold send_json, create_completion; cbn [sent snd].
    rewrite <- app_assoc. repeat split.
Qed.

(** *** The receive loop *)

(** One pass of the loop, by kind of frame. *)
Lemma on_frame_dispatch (frame : string) (t : Task) :
  match user_message_of frame with
  | Some user_input =>
      on_frame frame t
      = match run_turn user_input t with
        | Some (Ok t') => Continue t'
        | Some (Exn e t') => Raise e t'
        | None => Stuck
        end
  | None =>
      if ends_receive_loop frame
      then exists e, on_frame frame t = Raise e t
      else on_frame frame t = Continue t
  end.
Proof.
  unfold user_message_of, ends_receive_loop, on_frame.
  destruct (json_loads frame) as [e0|data]; [eauto|].
  destruct data as [| | | | |items|d]; cbn [dict_get type_name]; eauto.
  destruct (dict_lookup d "type") as [ty|]; cbn [is_message_type];
    [|reflexivity].
  destruct ty as [| | | |ty| |]; cbn [is_message_type]; try reflexivity.
  destruct (ty =? "message"); [|reflexivity].
  destruct (dict_lookup d "content") as [v|]; [|reflexivity].
  destruct v as [| | | |c| |]; eauto.
  destruct (PyStr.truthy (PyStr.strip c)); reflexivity.
Qed.

(** C8, as the code has it. The turn is run exactly for the frames that
    are a JSON object with [type] equal to [message] and a string [content]
    that is non-empty once trimmed; the loop goes on with the next frame
    when the turn returns, and is left with the exception of the turn when
    it raises. A JSON object with another [type], or a [message] whose
    [content] is missing or blank, is skipped without any effect and the
    loop goes on. A frame that is not JSON, is not an object, or is a
    [message] with a non-string [content] raises: nothing is sent, the
    remaining frames are not read and the loop is left. *)
Theorem receive_loop_dispatch (frame : string) (rest : list string) (t : Task) :
  match user_message_of frame with
  | Some user_input =>
      exists r,
        run_turn user_input t = Some r
        /\ receive_loop (frame :: rest) t
           = match r with
             | Ok t' => receive_loop rest t'
             | Exn e t' => Some (e, t')
             end
  | None =>
      if ends_receive_loop frame
      then exists e, receive_loop (frame :: rest) t = Some (e, t)
      else receive_loop (frame :: rest) t = receive_loop rest t
  end.
Proof.
  pose proof (on_frame_dispatch frame t) as H. cbn [receive_loop].
  destruct (user_message_of frame) as [u|].
  - rewrite H. destruct (run_turn_total u t) as [r E].
    exists r. rewrite E. destruct r; auto.
  - destruct (ends_receive_loop frame).
    + destruct H as [e H]. rewrite H. eauto.
    + rewrite H. reflexivity.
Qed.

(** The turn whose first completion call raises: the client gets the
    [error] frame and the [done] frame, and the receive loop goes on with
    the next frame. *)
Lemma failed_turn_returns (frame user_input : string) (rest : list string)
    (t : Task) (msg : string) :
  user_message_of frame = Some user_input ->
  completions_create (llm_calls t)
    (user_turn system_prompt :: messages t ++ [user_turn user_input])
  = inl msg ->
  exists t',
    receive_loop (frame :: rest) t = receive_loop rest t'
    /\ sent t' = sent t ++ [FrameError msg; FrameDone]
    /\ sessions_table t' = sessions_table t.
Proof.
  intros Hframe Hfail.
  pose proof (on_frame_dispatch frame t) as H. rewrite Hframe in H.
  cbn [receive_loop]. rewrite H. unfold run_turn, stream_llm_response.
  rewrite (while_loop_on_failure max_iterations 0 _ msg);
    [| unfold max_iterations; lia | exact Hfail].
  eexists. split; [reflexivity|].
  unfold send_json, create_completion, messages_append, messages_extend,
    add_event; cbn [sent snd sessions_table].
  rewrite <- app_assoc. split; reflexivity.
Qed.

End Properties.

(** ** Concrete runs *)

Module Scenarios.

Import Reference Fixtures.

(** The end-to-end scenario: a search request, a tool call, then text. *)
Example search_scenario :
  option_map
    (fun t => (sent t,
               map (fun e => (ev_sequence_num e, ev_event_type e))
                   (events_table t),
               map row_status (sessions_table t)))
    (websocket_endpoint (py := cpython)
       (svc := scripted [asks [search_x]; plain "Here is what I found.";
                         plain "- searched for X"] reliable)
       "s1" "user_0a1b2c3d" [] [] [search_frame])
  = Some ([FrameToolUse "search_knowledge_base" (dumps results_x);
           FrameText "Here is what I found."; FrameDone],
          [(1, "session_start"); (2, "user_message"); (3, "tool_call");
           (4, "tool_result"); (5, "assistant_message"); (6, "session_end")],
          ["completed"]).
Proof. vm_compute. reflexivity. Qed.

(** A provider that asks for a tool in every answer is called 3 times. *)
Example runaway_provider_is_cut :
  option_map
    (fun r => (raised r, llm_calls (store r), List.length (sent (store r))))
    (stream_llm_response (py := cpython) (svc := always (asks [search_x]))
       fresh)
  = Some (None, 3, 4).
Proof. vm_compute. reflexivity. Qed.

(** An unknown tool gets an error result, not an exception. *)
Example unknown_tool :
  process_tool_call (py := cpython) "delete_universe" (JObj [])
  = inr (dumps (JObj [("error", JStr "Unknown tool")])).
Proof. reflexivity. Qed.

(** *** C1 *)

(** The claim fails on a text that starts with [I'll]: the turn goes to the
    history, and neither an [assistant_message] event nor a [text] frame is
    produced. *)
Lemma deferred_text_not_shown :
  option_map
    (fun t => (map ev_event_type (issued_events t), sent t, messages t))
    (option_map store
       (run_turn (py := cpython)
          (svc := scripted [plain "I'll look that up."] reliable)
          "hello" fresh))
  = Some (["user_message"], [FrameDone],
          [user_turn "hello"; assistant_text_turn "I'll look that up."]).
Proof. vm_compute. reflexivity. Qed.

(** A text of blanks leaves no trace at all. *)
Example blank_text_ignored :
  on_response (py := cpython) (svc := scripted [] reliable)
    blank_response fresh
  = (false, Ok fresh).
Proof. reflexivity. Qed.

Lemma assistant_text_recorded_witness :
  PyStr.strip "  Here is what I found.
" = "Here is what I found."
  /\ exists ms,
       messages (store (snd (on_response (py := cpython)
                               (svc := scripted [] reliable)
                               shown_response fresh)))
       = assistant_text_turn "Here is what I found." :: ms.
Proof.
  split; [reflexivity|].
  exact (proj1 (assistant_text_recorded (py := cpython)
                  (svc := scripted [] reliable) shown_response fresh
                  _ eq_refl
                  ltac:(vm_compute; discriminate))).
Defined.

(** *** C10 *)

Lemma deferred_text_only_in_history_witness :
  PyStr.startswith (PyStr.strip " I'll fetch that for you. ") "I'll" = true
  /\ exists evs rows fs ms,
       messages (store (snd (on_response (py := cpython)
                               (svc := scripted [] reliable)
                               deferred_response fresh)))
       = assistant_text_turn "I'll fetch that for you." :: ms
       /\ issued_events (store (snd (on_response (py := cpython)
                                      (svc := scripted [] reliable)
                                      deferred_response fresh))) = evs
       /\ events_table (store (snd (on_response (py := cpython)
                                     (svc := scripted [] reliable)
                                     deferred_response fresh))) = rows
       /\ sent (store (snd (on_response (py := cpython)
                             (svc := scripted [] reliable)
                             deferred_response fresh))) = fs
       /\ Forall (fun e => ev_event_type e <> "assistant_message") evs
       /\ Forall (fun e => ev_event_type e <> "assistant_message") rows
       /\ Forall (fun f => forall x, f <> FrameText x) fs.
Proof.
  split; [reflexivity|].
  exact (deferred_text_only_in_history (py := cpython)
           (svc := scripted [] reliable) deferred_response fresh
           _ eq_refl
           ltac:(vm_compute; discriminate) eq_refl).
Defined.

(** *** C2 *)

(** C2 fails on a call with unparseable arguments. The first pass gives the
    call a result (the [tool_result] event and the [tool_use] frame carry
    the error payload of the tool run on the empty argument set), but the
    second pass drops the call: the history gains the assistant turn with
    the call and no tool turn for [call_2] before the next request. *)
Theorem tool_turn_missing_for_malformed_call :
  option_map
    (fun t => (messages t,
               map (fun e => (ev_event_type e, ev_tool_call_id e,
                              ev_tool_result e))
                   (issued_events t),
               sent t))
    (option_map store
       (run_turn (py := cpython)
          (svc := scripted [asks [bad_search]; plain "Done."] reliable)
          "search for X" fresh))
  = Some ([user_turn "search for X";
           assistant_calls_turn [bad_search];
           assistant_text_turn "Done."],
          [("user_message", None, None);
           ("tool_call", Some "call_2", None);
           ("tool_result", Some "call_2",
            Some (dumps (JObj [("error", JStr "'query'")])));
           ("assistant_message", None, None)],
          [FrameToolUse "search_knowledge_base"
             (dumps (JObj [("error", JStr "'query'")]));
           FrameText "Done."; FrameDone]).
Proof. vm_compute. reflexivity. Qed.

(** The same happens when the arguments parse and the tool raises. *)
Example tool_turn_missing_for_failing_tool :
  messages
    (store
       (handle_tool_calls (py := cpython) (svc := scripted [] reliable)
          [{| tc_id := "call_3"; tc_name := "fetch_user_data";
              tc_arguments := "{}" |}] fresh))
  = [assistant_calls_turn
       [{| tc_id := "call_3"; tc_name := "fetch_user_data";
           tc_arguments := "{}" |}]].
Proof. vm_compute. reflexivity. Qed.

(** *** C3 *)

(** The claim fails when an insert fails: the table of the session then
    holds the numbers 1, 2, 4. *)
Lemma failed_insert_leaves_gap :
  option_map
    (fun t => (map ev_sequence_num (issued_events t),
               map ev_sequence_num (events_table t)))
    (websocket_endpoint (py := cpython)
       (svc := scripted [plain "Hi."; plain "- greeting"] loses_third)
       "s1" "user_0a1b2c3d" [] [] [hello_frame])
  = Some ([1; 2; 3; 4], [1; 2; 4]).
Proof. vm_compute. reflexivity. Qed.

(** *** C6 *)

Lemma provider_failure_ends_turn_witness :
  (0 < max_iterations)
  /\ option_map
       (fun t => (sent t, llm_calls t, map ev_event_type (issued_events t)))
       (option_map store
          (stream_llm_response (py := cpython)
             (svc := scripted [inl "Connection error."] reliable) greeted))
     = Some ([FrameError "Connection error."; FrameDone], 1,
             ["user_message"]).
Proof.
  assert (H : 0 < max_iterations) by (unfold max_iterations; lia).
  split; [exact H|].
  destruct (provider_failure_ends_turn (py := cpython)
              (svc := scripted [inl "Connection error."] reliable)
              0 0 greeted "Connection error." H eq_refl) as [_ H2].
  destruct (H2 eq_refl) as (t'' & E & S & C & I & _).
  rewrite E. cbn [option_map store]. rewrite S, C, I. reflexivity.
Defined.

(** After the failed turn the connection serves the next message. *)
Example session_survives_provider_failure :
  option_map sent
    (websocket_endpoint (py := cpython)
       (svc := scripted [inl "Connection error."; plain "Hi."; plain "- bye"]
                 reliable)
       "s1" "user_0a1b2c3d" [] [] [hello_frame; hello_frame])
  = Some [FrameError "Connection error."; FrameDone;
          FrameText "Hi."; FrameDone].
Proof. vm_compute. reflexivity. Qed.

(** *** C5 *)

(** C5 fails on a turn in which the provider asks for a tool with
    arguments on which [json.loads] raises [ValueError]: the exception
    leaves [stream_llm_response] after the completion call, with nothing
    sent, so the turn has no [done] frame. *)
Theorem done_frame_missing_after_unreadable_call :
  option_map
    (fun r => (raised r, sent (store r),
               map ev_event_type (issued_events (store r)),
               llm_calls (store r)))
    (run_turn (py := cpython)
       (svc := scripted [asks [unreadable_search]; plain "Done."] reliable)
       "search for X" fresh)
  = Some (Some too_many_digits, [], ["user_message"], 1).
Proof. vm_compute. reflexivity. Qed.

(** The same with arguments that exhaust the recursion limit. *)
Example done_frame_missing_after_nested_call :
  option_map
    (fun r => (raised r, sent (store r)))
    (run_turn (py := cpython)
       (svc := scripted [asks [nested_search]; plain "Done."] reliable)
       "search for X" fresh)
  = Some (Some (too_deep "array"), []).
Proof. vm_compute. reflexivity. Qed.

(** The connection is then finalised: the message that follows is never
    read and the client gets no frame at all. *)
Example unreadable_call_ends_session :
  option_map
    (fun t => (sent t, map ev_event_type (issued_events t),
               map row_status (sessions_table t)))
    (websocket_endpoint (py := cpython)
       (svc := scripted [asks [unreadable_search]; plain "- a search"]
                 reliable)
       "s1" "user_0a1b2c3d" [] [] [search_frame; hello_frame])
  = Some ([], ["session_start"; "user_message"; "session_end"],
          ["completed"]).
Proof. vm_compute. reflexivity. Qed.

(** *** C7 *)

(** C7 fails on arguments that are not JSON and on which [json.loads]
    raises [ValueError] instead of [JSONDecodeError]: the first pass raises
    on the call, no [tool_call] event is issued, nothing is sent and the
    tool is not run. *)
Theorem unreadable_arguments_raise :
  json_loads (PyRuntime := cpython) (tc_arguments unreadable_search)
  = inl too_many_digits
  /\ run_tool_call (py := cpython) (svc := scripted [] reliable)
       unreadable_search fresh
     = Exn too_many_digits fresh
  /\ handle_tool_calls (py := cpython) (svc := scripted [] reliable)
       [unreadable_search; search_x] fresh
     = Exn too_many_digits fresh.
Proof. vm_compute. repeat split. Qed.

(** The same with arguments that exhaust the recursion limit. *)
Example nested_arguments_raise :
  run_tool_call (py := cpython) (svc := scripted [] reliable)
    nested_search fresh
  = Exn (too_deep "array") fresh.
Proof. vm_compute. reflexivity. Qed.

(** On [JSONDecodeError] the fallback is taken. *)
Example malformed_arguments_fall_back_run :
  json_loads (PyRuntime := cpython) (tc_arguments bad_search)
  = inl JSONDecodeError
  /\ exists t',
       run_tool_call (py := cpython) (svc := scripted [] reliable)
         bad_search fresh = Ok t'
       /\ tool_invocations t' = [("search_knowledge_base", JObj [])]
       /\ sent t'
          = [FrameToolUse "search_knowledge_base"
               (dumps (JObj [("error", JStr "'query'")]))]
       /\ forall acc,
            tool_result_turn (py := cpython) bad_search acc = acc.
Proof.
  split; [reflexivity|].
  destruct (malformed_arguments_fall_back (py := cpython)
              (svc := scripted [] reliable) bad_search fresh eq_refl)
    as (t' & E & _ & V & S & A).
  exists t'. auto.
Qed.

Example malformed_arguments_event_content :
  map (fun e => (ev_event_type e, ev_content e))
    (events_table
       (store
          (run_tool_call (py := cpython) (svc := scripted [] reliable)
             bad_search fresh)))
  = [("tool_call", Some "{}"); ("tool_result", None)].
Proof. vm_compute. reflexivity. Qed.

(** *** C8 *)

(** The claim fails on a malformed frame: the loop is left, the message
    that follows is never read, and the session is finalised. *)
Lemma malformed_frame_ends_session :
  option_map
    (fun t => (sent t, map ev_event_type (issued_events t),
               map row_status (sessions_table t)))
    (websocket_endpoint (py := cpython)
       (svc := scripted [plain "- nothing happened"] reliable)
       "s1" "user_0a1b2c3d" [] [] ["{invalid"; hello_frame])
  = Some ([], ["session_start"; "session_end"], ["completed"]).
Proof. vm_compute. reflexivity. Qed.

(** An empty frame and a frame that is not an object do the same. *)
Example empty_frame_ends_loop :
  receive_loop (py := cpython) (svc := scripted [] reliable)
    [EmptyString; hello_frame] fresh
  = Some (JSONDecodeError, fresh)
  /\ exists e,
       receive_loop (py := cpython) (svc := scripted [] reliable)
         ["[1, 2]"; hello_frame] fresh
       = Some (AttributeError e, fresh).
Proof. split; [reflexivity|]. eexists. vm_compute. reflexivity. Qed.

(** Frames of another type and blank messages are skipped. *)
Example other_frames_are_skipped :
  receive_loop (py := cpython) (svc := scripted [] reliable)
    [dq "{'type': 'ping'}"; dq "{'type': 'message', 'content': '   '}";
     dq "{'type': 'message'}"; dq "{}"] fresh
  = Some (WebSocketDisconnect, fresh).
Proof. vm_compute. reflexivity. Qed.

(** *** C9 *)


Example parsed_call_executed_twice :
  tool_invocations
    (store
       (handle_tool_calls (py := cpython) (svc := scripted [] reliable)
          [search_x] fresh))
  = [("search_knowledge_base", JObj [("query", JStr "X")]);
     ("search_knowledge_base", JObj [("query", JStr "X")])].
Proof. vm_compute. reflexivity. Qed.


End Scenarios.

(** ** Further properties of the code *)

Section MoreProperties.

Context {py : PyRuntime} {svc : Services}.

(** *** The tools and their schema *)

Lemma declared_tools_eq :
  declared_tools
  = [("fetch_user_data", ["user_id"]); ("search_knowledge_base", ["query"])].
Proof. reflexivity. Qed.

(** X1. A tool name that the schema [TOOLS] does not declare never makes
    [process_tool_call] raise, whatever the arguments are: the answer is
    the serialised [{"error": "Unknown tool"}]. *)
Theorem undeclared_tool_reports_unknown (name : string) (input : json) :
  ~ In name (map fst declared_tools) ->
  process_tool_call name input = inr unknown_tool_payload.
Proof.
  intros H. unfold process_tool_call.
  destruct (name =? "fetch_user_data") eqn:E1.
  - apply String.eqb_eq in E1. subst name. exfalso. apply H. simpl. auto.
  - destruct (name =? "search_knowledge_base") eqn:E2; [|reflexivity].
    apply String.eqb_eq in E2. subst name. exfalso. apply H. simpl. auto.
Qed.

(** X2. A tool that the schema declares, called with a dict that binds each
    key the schema requires to a string, does not raise: the answer is a
    serialised dict. *)
Theorem declared_tool_accepts_schema_input
    (name : string) (required : list string) (d : list (string * json)) :
  In (name, required) declared_tools ->
  (forall k, In k required -> exists s, dict_lookup d k = Some (JStr s)) ->
  exists result,
    process_tool_call name (JObj d) = inr (json_dumps (JObj result)).
Proof.
  intros Hin Hkeys. rewrite declared_tools_eq in Hin.
  destruct Hin as [[= <- <-]|[[= <- <-]|[]]].
  - destruct (Hkeys "user_id" (or_introl eq_refl)) as [s Hs].
    unfold process_tool_call, getitem, fetch_user_data, slice8.
    cbn [String.eqb Ascii.eqb Bool.eqb]. rewrite Hs. eauto.
  - destruct (Hkeys "query" (or_introl eq_refl)) as [s Hs].
    unfold process_tool_call, getitem, search_knowledge_base.
    cbn [String.eqb Ascii.eqb Bool.eqb]. rewrite Hs. eauto.
Qed.

(** X3. A declared tool called with a dict that lacks a key the schema
    requires raises [KeyError] on that key, before the tool runs. *)
Theorem declared_tool_missing_key
    (name : string) (required : list string) (d : list (string * json))
    (k : string) :
  In (name, required) declared_tools ->
  In k required ->
  dict_lookup d k = None ->
  process_tool_call name (JObj d) = inl (KeyError k).
Proof.
  intros Hin Hk Hnone. rewrite declared_tools_eq in Hin.
  destruct Hin as [[= <- <-]|[[= <- <-]|[]]];
    destruct Hk as [<-|[]];
    unfold process_tool_call, getitem;
    cbn [String.eqb Ascii.eqb Bool.eqb]; rewrite Hnone; reflexivity.
Qed.



(** *** The two passes over the tool calls *)

Lemma same_log_refl (t : Task) : same_log t t.
Proof. repeat split. Qed.

Lemma same_log_trans (t1 t2 t3 : Task) :
  same_log t1 t2 -> same_log t2 t3 -> same_log t1 t3.
Proof.
  unfold same_log. intros (A & B & C & D & E & F & G) (A' & B' & C' & D' & E' & F' & G').
  repeat split; congruence.
Qed.

Lemma second_pass_same_log (l : list ToolCall) (acc : list Message * Task) :
  same_log (snd acc)
    (snd (fold_left (fun acc tc => tool_result_turn tc acc) l acc)).
Proof.
  apply (closure_tool_results same_log).
  - apply same_log_refl.
  - apply same_log_trans.
  - intros. repeat split.
Qed.

Lemma run_tool_call_counter (tc : ToolCall) (t t' : Task) :
  run_tool_call tc t = Ok t' ->
  event_sequence t' = event_sequence t + 1 + 1
  /\ session_id t' = session_id t.
Proof.
  unfold run_tool_call. cbv zeta.
  destruct (load_tool_input tc) as [e|v]; [discriminate|].
  unfold call_tool, send_json, add_event. cbn.
  intros [= <-]. split; reflexivity.
Qed.

(** The first pass, over the calls it handles. *)
Lemma first_pass_log (l : list ToolCall) (t : Task) :
  let t' := store (run_tool_calls l t) in
  issued_events t'
  = issued_events t
    ++ tool_events (session_id t) (event_sequence t) (handled_calls l)
  /\ sent t' = sent t ++ map tool_use_frame (handled_calls l)
  /\ event_sequence t'
     = event_sequence t + 2 * List.length (handled_calls l)
  /\ session_id t' = session_id t.
Proof.
  revert t. induction l as [|tc l IH]; intros t.
  - change (run_tool_calls [] t) with (Ok t). cbn.
    rewrite !app_nil_r. repeat split. lia.
  - cbv zeta. rewrite run_tool_calls_cons. cbn [handled_calls].
    pose proof (run_tool_call_result tc t) as R.
    destruct (run_tool_call tc t) as [t1|e t1] eqn:E.
    + rewrite R. destruct (IH t1) as (I & S & Q & D). cbv zeta in I, S, Q, D.
      destruct (run_tool_call_counter _ _ _ E) as [Q1 D1].
      rewrite I, S, Q, D, Q1, D1.
      rewrite (run_tool_call_issued _ _ _ E), (run_tool_call_sent _ _ _ E).
      cbn [tool_events map List.length]. rewrite <- !app_assoc.
      repeat split. lia.
    + destruct R as [-> ->]. cbn. rewrite !app_nil_r. repeat split. lia.
Qed.

Lemma handle_tool_calls_log (l : list ToolCall) (t : Task) :
  let t' := store (handle_tool_calls l t) in
  issued_events t'
  = issued_events t
    ++ tool_events (session_id t) (event_sequence t) (handled_calls l)
  /\ sent t' = sent t ++ map tool_use_frame (handled_calls l)
  /\ event_sequence t'
     = event_sequence t + 2 * List.length (handled_calls l).
Proof.
  unfold handle_tool_calls. cbv zeta.
  destruct (first_pass_log l t) as (I & S & Q & _). cbv zeta in I, S, Q.
  destruct (run_tool_calls l t) as [t1|e t1]; cbn [store] in *;
    [|exact (conj I (conj S Q))].
  set (t2 := messages_append _ t1).
  pose proof (second_pass_same_log l ([], t2)) as H.
  destruct (fold_left _ l ([], t2)) as [ms t3]. cbn [snd] in H.
  destruct H as (I3 & _ & S3 & Q3 & _).
  unfold messages_extend; cbn [issued_events sent event_sequence].
  rewrite I3, S3, Q3. exact (conj I (conj S Q)).
Qed.

Lemma tool_events_types (sid : string) (n : nat) (l : list ToolCall) :
  map (fun e => (ev_event_type e, ev_tool_call_id e)) (tool_events sid n l)
  = flat_map (fun tc => [("tool_call", Some (tc_id tc));
                         ("tool_result", Some (tc_id tc))]) l.
Proof.
  revert n. induction l as [|tc l IH]; intros n; cbn; [reflexivity|].
  rewrite IH. reflexivity.
Qed.

(** X5. Of the tool calls of one response the first pass handles those
    before the first call on whose arguments [json.loads] raises something
    else than [JSONDecodeError], all of them when there is no such call.
    For the [K] calls handled the engine issues [2 K] events, a [tool_call]
    then a [tool_result] for each call in the order requested, numbered
    consecutively from the current counter, and sends [K] [tool_use] frames
    in that order, each with the result recorded in the [tool_result] event
    of its call; nothing else is issued or sent. *)
Theorem tool_calls_events_and_frames (l : list ToolCall) (t : Task) :
  let t' := store (handle_tool_calls l t) in
  let handled := handled_calls l in
  issued_events t'
  = issued_events t ++ tool_events (session_id t) (event_sequence t) handled
  /\ map (fun e => (ev_event_type e, ev_tool_call_id e))
       (tool_events (session_id t) (event_sequence t) handled)
     = flat_map (fun tc => [("tool_call", Some (tc_id tc));
                            ("tool_result", Some (tc_id tc))]) handled
  /\ sent t' = sent t ++ map tool_use_frame handled
  /\ event_sequence t' = event_sequence t + 2 * List.length handled
  /\ (existsb escapes l = false -> handled = l).
Proof.
  destruct (handle_tool_calls_log l t) as (I & S & Q).
  cbv zeta. split; [exact I|]. split; [apply tool_events_types|].
  split; [exact S|]. split; [exact Q|]. apply handled_calls_all.
Qed.

Lemma second_pass_turns (l : list ToolCall) :
  flat_map second_pass_turn l
  = map (fun tc => tool_turn (tc_id tc) (first_pass_result tc))
      (filter second_pass_ok l).
Proof.
  induction l as [|tc l IH]; cbn [flat_map filter]; [reflexivity|].
  rewrite IH. clear IH.
  assert (H : second_pass_turn tc
              = if second_pass_ok tc
                then [tool_turn (tc_id tc) (first_pass_result tc)] else []).
  { unfold second_pass_turn, second_pass_ok, first_pass_result,
      first_pass_input.
    destruct (json_loads (tc_arguments tc)) as [e|v]; [reflexivity|].
    destruct (process_tool_call (tc_name tc) v); reflexivity. }
  rewrite H. destruct (second_pass_ok tc); reflexivity.
Qed.

(** X6. When the first pass raises on one of the calls of a response, the
    history gains nothing. Otherwise it gains, after the assistant turn
    with all the calls, a tool turn for exactly the calls whose arguments
    parse and whose tool does not raise in the second pass, in the order
    requested; each carries the id of its call and the very result text
    that the first pass put in the [tool_result] event and the [tool_use]
    frame of that call. *)
Theorem tool_turns_match_recorded_results (l : list ToolCall) (t : Task) :
  messages (store (handle_tool_calls l t))
  = if existsb escapes l
    then messages t
    else messages t
         ++ assistant_calls_turn l
            :: map (fun tc => tool_turn (tc_id tc) (first_pass_result tc))
                 (filter second_pass_ok l).
Proof. rewrite handle_tool_calls_history, second_pass_turns. reflexivity. Qed.

(** X7. When the arguments of every call of a response parse and every
    tool runs without raising, the history gains one assistant turn with
    all the calls, then exactly one tool turn per call, in order, each
    linked to its call by [tool_call_id]. *)
Theorem tool_calls_history_complete (l : list ToolCall) (t : Task) :
  (forall tc, In tc l ->
     exists v r, json_loads (tc_arguments tc) = inr v
                 /\ process_tool_call (tc_name tc) v = inr r) ->
  exists t',
    handle_tool_calls l t = Ok t'
    /\ messages t'
       = messages t
         ++ assistant_calls_turn l
            :: map (fun tc => tool_turn (tc_id tc) (first_pass_result tc)) l.
Proof.
  intros H.
  assert (Hesc : existsb escapes l = false).
  { apply existsb_escapes_false. intros tc Hin.
    destruct (H tc Hin) as (v & r & Hv & _).
    unfold escapes, load_tool_input. rewrite Hv. reflexivity. }
  destruct (handle_tool_calls_handled l t Hesc) as [t' E].
  exists t'. split; [exact E|].
  pose proof (handle_tool_calls_history l t) as M.
  rewrite E, Hesc, (second_pass_complete l H) in M. exact M.
Qed.

(** *** The loop of one turn *)

Lemma while_loop_runaway (fuel iteration : nat) (t : Task) :
  (forall n req, exists response tc tcs,
      completions_create n req = inr response
      /\ resp_tool_calls response = Some (tc :: tcs)
      /\ existsb escapes (tc :: tcs) = false) ->
  max_iterations - iteration < fuel ->
  exists t',
    while_loop fuel iteration t = Some (Ok t')
    /\ llm_calls t' = llm_calls t + (max_iterations - iteration).
Proof.
  intros Hasks. revert iteration t.
  induction fuel as [|fuel IH]; intros iteration t Hfuel; [lia|].
  cbn [while_loop].
  destruct (iteration <? max_iterations)%nat eqn:Hlt.
  - apply Nat.ltb_lt in Hlt.
    set (req := if (iteration + 1 =? 1)%nat then _ else _).
    destruct (Hasks (llm_calls t) req)
      as (response & tc & tcs & Hr & Htc & Hesc).
    unfold create_completion. rewrite Hr.
    set (t1 := {| session_id := session_id t; user_id := user_id t;
                  event_sequence := event_sequence t; messages := messages t;
                  events_table := events_table t;
                  sessions_table := sessions_table t; sent := sent t;
                  llm_calls := llm_calls t + 1;
                  issued_events := issued_events t;
                  tool_invocations := tool_invocations t |}).
    pose proof (on_response_llm_calls response t1) as Hc.
    destruct (handle_tool_calls_handled (tc :: tcs)
                (handle_text response t1) Hesc) as [t2 E2].
    unfold on_response in *. rewrite Htc, E2 in *. cbn [snd store] in Hc.
    destruct (IH (iteration + 1) t2) as (t' & E & C); [lia|].
    exists t'. split; [exact E|]. rewrite C, Hc. cbn [llm_calls t1]. lia.
  - apply Nat.ltb_ge in Hlt. exists t. split; [reflexivity|]. lia.
Qed.

(** X8. The bound of the loop is reached: when every answer of the
    completion service asks for tools, and the first pass raises on none of
    the calls asked for, one turn makes exactly 3 calls to the service and
    returns. *)
Theorem runaway_provider_makes_3_calls (t : Task) :
  (forall n req, exists response tc tcs,
      completions_create n req = inr response
      /\ resp_tool_calls response = Some (tc :: tcs)
      /\ existsb escapes (tc :: tcs) = false) ->
  exists t',
    stream_llm_response t = Some (Ok t') /\ llm_calls t' = llm_calls t + 3.
Proof.
  intros Hasks.
  destruct (while_loop_runaway (S max_iterations) 0 t Hasks) as (t1 & E & C);
    [lia|].
  unfold stream_llm_response. rewrite E. eexists. split; [reflexivity|].
  unfold send_json; cbn [llm_calls]. rewrite C. reflexivity.
Qed.

(** X9. When the first answer of a turn has no tool call and a text that,
    once trimmed, is non-empty and does not start with [I'll], the turn is
    one call to the completion service, one [assistant_message] event, one
    [text] frame followed by [done], and one assistant turn in the history;
    no tool is run. *)
Theorem plain_answer_turn (t : Task) (response : Response) (c : string) :
  completions_create (llm_calls t) (user_turn system_prompt :: messages t)
  = inr response ->
  resp_tool_calls response = None \/ resp_tool_calls response = Some [] ->
  resp_content response = Some c ->
  PyStr.strip c <> "" ->
  PyStr.startswith (PyStr.strip c) "I'll" = false ->
  exists t',
    stream_llm_response t = Some (Ok t')
    /\ sent t' = sent t ++ [FrameText (PyStr.strip c); FrameDone]
    /\ issued_events t'
       = issued_events t ++ [assistant_message_event t (PyStr.strip c)]
    /\ messages t' = messages t ++ [assistant_text_turn (PyStr.strip c)]
    /\ llm_calls t' = llm_calls t + 1
    /\ tool_invocations t' = tool_invocations t.
Proof.
  intros Hr Htc Hc Hs Hp.
  unfold stream_llm_response. cbn [while_loop Nat.ltb Nat.leb max_iterations].
  cbn [Nat.add Nat.eqb]. unfold create_completion. rewrite Hr.
  unfold on_response.
  rewrite (handle_text_shown response _ c Hc Hs Hp).
  assert (E : match resp_tool_calls response with
              | Some (tc :: tcs) => true
              | _ => false
              end = false) by (destruct Htc as [-> | ->]; reflexivity).
  destruct (resp_tool_calls response) as [[|tc tcs]|]; try discriminate;
    (eexists; split; [reflexivity|];
     unfold send_json, messages_append, messages_extend, add_event;
     cbn [sent issued_events messages llm_calls tool_invocations];
     rewrite <- ?app_assoc; repeat split).
Qed.

Lemma handle_text_effect (response : Response) (t : Task) :
  exists fs ms,
    sent (handle_text response t) = sent t ++ fs
    /\ List.length fs <= 1
    /\ messages (handle_text response t) = messages t ++ ms
    /\ Forall assistant_or_tool ms.
Proof.
  unfold handle_text, response_text_of.
  destruct (resp_content response) as [c|].
  - destruct (PyStr.truthy c).
    + destruct (PyStr.truthy (PyStr.strip c)); cbn [andb].
      * destruct (negb (PyStr.startswith (PyStr.strip c) "I'll")).
        -- exists [FrameText (PyStr.strip c)],
             [assistant_text_turn (PyStr.strip c)].
           repeat split; auto. constructor; [left; reflexivity | constructor].
        -- exists [], [assistant_text_turn (PyStr.strip c)].
           cbn [sent messages_append messages_extend]. rewrite app_nil_r.
           repeat split; auto. constructor; [left; reflexivity | constructor].
      * exists [], []. rewrite !app_nil_r. repeat split; auto.
    + exists [], []. rewrite !app_nil_r. repeat split; auto.
  - exists [], []. rewrite !app_nil_r. repeat split; auto.
Qed.

Lemma tool_frames_not_text (l : list ToolCall) :
  filter is_text_frame (map tool_use_frame l) = [].
Proof. induction l as [|tc l IH]; cbn; auto. Qed.

Lemma second_pass_turns_are_tool (l : list ToolCall) :
  Forall assistant_or_tool (flat_map second_pass_turn l).
Proof.
  rewrite second_pass_turns. apply Forall_forall. intros m Hm.
  apply in_map_iff in Hm. destruct Hm as (tc & <- & _). right. reflexivity.
Qed.

Lemma on_response_effect (response : Response) (t : Task) :
  exists fs ms,
    sent (store (snd (on_response response t))) = sent t ++ fs
    /\ List.length (filter is_text_frame fs) <= 1
    /\ messages (store (snd (on_response response t))) = messages t ++ ms
    /\ Forall assistant_or_tool ms.
Proof.
  destruct (handle_text_effect response t) as (fs & ms & S & L & M & F).
  assert (Lf : List.length (filter is_text_frame fs) <= 1).
  { pose proof (filter_length_le is_text_frame fs). lia. }
  unfold on_response.
  destruct (resp_tool_calls response) as [[|tc tcs]|]; cbn [snd store].
  - exists fs, ms. auto.
  - destruct (handle_tool_calls_log (tc :: tcs) (handle_text response t))
      as (_ & S2 & _). cbv zeta in S2.
    pose proof (handle_tool_calls_history (tc :: tcs)
                  (handle_text response t)) as M2.
    exists (fs ++ map tool_use_frame (handled_calls (tc :: tcs))),
      (ms ++ if existsb escapes (tc :: tcs) then []
             else assistant_calls_turn (tc :: tcs)
                  :: flat_map second_pass_turn (tc :: tcs)).
    rewrite S2, S, M2, M, <- !app_assoc.
    split; [reflexivity|]. split; [|split].
    + rewrite filter_app, tool_frames_not_text, app_nil_r. exact Lf.
    + destruct (existsb escapes (tc :: tcs));
        rewrite <- ?app_assoc, ?app_nil_r; reflexivity.
    + apply Forall_app. split; [exact F|].
      destruct (existsb escapes (tc :: tcs)); [constructor|].
      constructor; [left; reflexivity | apply second_pass_turns_are_tool].
  - exists fs, ms. auto.
Qed.

Lemma while_loop_effect (fuel iteration : nat) (t : Task) (r : Result) :
  while_loop fuel iteration t = Some r ->
  exists fs ms,
    sent (store r) = sent t ++ fs
    /\ List.length (filter is_text_frame fs) + llm_calls t
       <= llm_calls (store r)
    /\ messages (store r) = messages t ++ ms
    /\ Forall assistant_or_tool ms.
Proof.
  revert iteration t.
  induction fuel as [|fuel IH]; intros iteration t; cbn [while_loop];
    [discriminate|].
  destruct (iteration <? max_iterations)%nat.
  - set (req := if (iteration + 1 =? 1)%nat then _ else _).
    unfold create_completion.
    set (t1 := {| session_id := session_id t; user_id := user_id t;
                  event_sequence := event_sequence t; messages := messages t;
                  events_table := events_table t;
                  sessions_table := sessions_table t; sent := sent t;
                  llm_calls := llm_calls t + 1;
                  issued_events := issued_events t;
                  tool_invocations := tool_invocations t |}).
    destruct (completions_create (llm_calls t) req) as [e|response].
    + intros [= <-]. exists [FrameError e], [].
      unfold send_json; cbn. rewrite app_nil_r. repeat split; auto. lia.
    + destruct (on_response_effect response t1) as (fs & ms & S & L & M & F).
      pose proof (on_response_llm_calls response t1) as C.
      assert (Hstop : forall r',
                 store r' = store (snd (on_response response t1)) ->
                 exists fs ms,
                   sent (store r') = sent t ++ fs
                   /\ List.length (filter is_text_frame fs) + llm_calls t
                      <= llm_calls (store r')
                   /\ messages (store r') = messages t ++ ms
                   /\ Forall assistant_or_tool ms).
      { intros r' ->. exists fs, ms. repeat split; auto.
        cbn [llm_calls t1] in C. lia. }
      destruct (on_response response t1) as [[|] [t2|e2 t2]];
        cbn [snd store] in *.
      * intros E. destruct (IH _ _ E) as (fs2 & ms2 & S2 & L2 & M2 & F2).
        exists (fs ++ fs2), (ms ++ ms2).
        rewrite S2, S, M2, M, <- !app_assoc. repeat split.
        -- rewrite filter_app, length_app. cbn [llm_calls t1] in C. lia.
        -- apply Forall_app. auto.
      * intros [= <-]. apply Hstop. reflexivity.
      * intros [= <-]. apply Hstop. reflexivity.
      * intros [= <-]. apply Hstop. reflexivity.
  - intros [= <-]. exists [], []. cbn [store]. rewrite !app_nil_r.
    repeat split; auto.
Qed.

(** X10. A turn sends at most one [text] frame per call to the completion
    service, so at most 3. *)
Theorem text_frames_bounded_by_calls (t : Task) :
  exists r fs,
    stream_llm_response t = Some r
    /\ sent (store r) = sent t ++ fs
    /\ List.length (filter is_text_frame fs) + llm_calls t
       <= llm_calls (store r)
    /\ List.length (filter is_text_frame fs) <= 3.
Proof.
  destruct (stream_llm_response_total t) as [r E].
  unfold stream_llm_response in E.
  destruct (while_loop (S max_iterations) 0 t) as [[t1|e1 t1]|] eqn:E1;
    [| |discriminate]; injection E as <-;
    destruct (while_loop_effect _ _ _ _ E1) as (fs & ms & S & L & _);
    pose proof (while_loop_llm_calls _ _ _ _ E1) as B;
    unfold max_iterations in B; cbn [store] in *.
  - exists (Ok (send_json FrameDone t1)), (fs ++ [FrameDone]).
    unfold stream_llm_response. rewrite E1. split; [reflexivity|].
    unfold send_json; cbn [store sent llm_calls].
    rewrite S, filter_app, length_app, <- app_assoc. cbn. repeat split; lia.
  - exists (Exn e1 t1), fs.
    unfold stream_llm_response. rewrite E1. split; [reflexivity|].
    cbn [store]. repeat split; auto; lia.
Qed.

(** X11. [stream_llm_response] only appends to the history, and what it
    appends are assistant and tool turns: the system instruction sent with
    the first request is never stored, and no user turn is added. *)
Theorem turn_appends_assistant_and_tool_turns (t : Task) :
  exists r ms,
    stream_llm_response t = Some r
    /\ messages (store r) = messages t ++ ms
    /\ Forall assistant_or_tool ms
    /\ ~ In (user_turn system_prompt) ms.
Proof.
  destruct (stream_llm_response_total t) as [r E].
  exists r. unfold stream_llm_response in E.
  destruct (while_loop (S max_iterations) 0 t) as [[t1|e1 t1]|] eqn:E1;
    [| |discriminate]; injection E as <-;
    destruct (while_loop_effect _ _ _ _ E1) as (fs & ms & _ & _ & M & F);
    exists ms; unfold stream_llm_response; rewrite E1;
    (repeat split; auto;
     intros Hin; rewrite Forall_forall in F;
     destruct (F _ Hin) as [H|H]; discriminate H).
Qed.

(** *** Trimming *)







(** *** One turn, then all the turns of a connection *)

Lemma emits_create_completion (Pe : Event -> Prop) (Pf : Frame -> Prop)
    (req : list Message) (t : Task) :
  emits Pe Pf t (snd (create_completion req t)).
Proof.
  exists [], [], [], [].
  unfold create_completion; cbn [snd issued_events events_table sent messages].
  rewrite !app_nil_r. repeat split; auto.
Qed.

Lemma same_session_refl (t : Task) : same_session t t.
Proof. repeat split. Qed.

Lemma same_session_trans (t1 t2 t3 : Task) :
  same_session t1 t2 -> same_session t2 t3 -> same_session t1 t3.
Proof.
  unfold same_session. intros (A & B & C) (A' & B' & C').
  repeat split; congruence.
Qed.

Lemma stream_same_session (t : Task) (r : Result) :
  stream_llm_response t = Some r -> same_session t (store r).
Proof.
  apply (closure_stream_llm_response same_session (fun _ => True)
           (fun _ => True));
    try exact I; try (intros; exact I);
    try exact same_session_trans;
    intros; repeat split.
Qed.

Lemma stream_reply_events (t : Task) (r : Result) :
  stream_llm_response t = Some r ->
  exists evs,
    issued_events (store r) = issued_events t ++ evs
    /\ Forall reply_event evs.
Proof.
  intros E.
  assert (H : emits reply_event (fun _ => True) t (store r)).
  { revert E.
    apply (closure_stream_llm_response (emits reply_event (fun _ => True))
             (fun ty => forall e, ev_event_type e = ty -> reply_event e)
             (fun _ => True));
      try exact I; try (intros; exact I);
      try exact (emits_trans reply_event (fun _ => True));
      auto using emits_refl, emits_add_event, emits_send_json,
                 emits_messages_extend, emits_call_tool,
                 emits_create_completion.
    - intros e He. left. exact He.
    - intros e He. right. left. exact He.
    - intros e He. right. right. exact He. }
  destruct H as (evs & _ & _ & _ & I & _ & _ & _ & F & _). eauto.
Qed.

Lemma stream_effect (t : Task) (r : Result) :
  stream_llm_response t = Some r ->
  (exists evs,
      issued_events (store r) = issued_events t ++ evs
      /\ Forall reply_event evs)
  /\ (exists fs,
        sent (store r) = sent t ++ fs ++ closing r /\ ~ In FrameDone fs)
  /\ (exists ms,
        messages (store r) = messages t ++ ms /\ Forall assistant_or_tool ms)
  /\ llm_calls (store r) <= llm_calls t + 3
  /\ same_session t (store r).
Proof.
  intros E. split; [exact (stream_reply_events t r E)|].
  split; [|split; [|split; [|exact (stream_same_session t r E)]]];
    unfold stream_llm_response in E;
    destruct (while_loop (S max_iterations) 0 t) as [[t1|e1 t1]|] eqn:E1;
    try discriminate; injection E as <-; cbn [store closing].
  - destruct (while_loop_sent _ _ _ _ E1) as (fs & S & N).
    exists fs. unfold send_json; cbn [sent store] in *.
    rewrite S, <- app_assoc. auto.
  - destruct (while_loop_sent _ _ _ _ E1) as (fs & S & N).
    exists fs. cbn [store] in S. rewrite app_nil_r. auto.
  - destruct (while_loop_effect _ _ _ _ E1) as (_ & ms & _ & _ & M & F).
    exists ms. auto.
  - destruct (while_loop_effect _ _ _ _ E1) as (_ & ms & _ & _ & M & F).
    exists ms. auto.
  - apply while_loop_llm_calls in E1. unfold max_iterations in E1.
    unfold send_json; cbn [llm_calls store] in *. lia.
  - apply while_loop_llm_calls in E1. unfold max_iterations in E1.
    cbn [store] in E1. lia.
Qed.

Lemma run_turn_effect (user_input : string) (t : Task) :
  exists r evs fs ms,
    run_turn user_input t = Some r
    /\ issued_events (store r)
       = issued_events t ++ user_message_event t user_input :: evs
    /\ Forall reply_event evs
    /\ sent (store r) = sent t ++ fs ++ closing r
    /\ ~ In FrameDone fs
    /\ messages (store r) = messages t ++ user_turn user_input :: ms
    /\ Forall assistant_or_tool ms
    /\ llm_calls (store r) <= llm_calls t + 3
    /\ same_session t (store r).
Proof.
  destruct (run_turn_total user_input t) as [r E].
  pose proof E as E0. unfold run_turn in E0.
  destruct (stream_effect _ _ E0)
    as ((evs & I & Fe) & (fs & S & N) & (ms & M & Fm) & C & Hs).
  exists r, evs, fs, ms. split; [exact E|].
  unfold messages_append, messages_extend, add_event in I, S, M, C, Hs.
  cbn [issued_events sent messages llm_calls] in I, S, M, C.
  unfold same_session in *;
    cbn [session_id user_id sessions_table] in Hs.
  rewrite I, S, M, <- !app_assoc. repeat split; tauto.
Qed.

(** The receive loop and the turns of the user messages end with the
    same store. *)
Lemma receive_loop_turns (frames : list string) (t : Task) :
  exists e t' r,
    receive_loop frames t = Some (e, t')
    /\ run_turns (message_inputs frames) t = Some r
    /\ store r = t'.
Proof.
  revert t. induction frames as [|frame frames IH]; intros t;
    cbn [receive_loop message_inputs].
  - exists WebSocketDisconnect, t, (Ok t). auto.
  - pose proof (on_frame_dispatch frame t) as H.
    destruct (user_message_of frame) as [u|].
    + rewrite H. cbn [run_turns].
      destruct (run_turn_total u t) as [[t1|e1 t1] E]; rewrite E.
      * apply IH.
      * exists e1, t1, (Exn e1 t1). auto.
    + destruct (ends_receive_loop frame).
      * destruct H as [e H]. rewrite H. exists e, t, (Ok t). auto.
      * rewrite H. apply IH.
Qed.

Lemma no_user_message_in_replies (evs : list Event) :
  Forall reply_event evs -> filter is_user_message evs = [].
Proof.
  induction 1 as [|e evs He _ IH]; [reflexivity|]. cbn [filter].
  rewrite IH. unfold is_user_message.
  destruct He as [H|[H|H]]; rewrite H; reflexivity.
Qed.

Lemma no_done_frame (fs : list Frame) :
  ~ In FrameDone fs -> filter is_done_frame fs = [].
Proof.
  induction fs as [|f fs IH]; intros H; [reflexivity|]. cbn [filter].
  rewrite IH by (intros Hin; apply H; right; exact Hin).
  destruct f; try reflexivity. exfalso. apply H. left. reflexivity.
Qed.

Lemma no_user_turn_in_replies (ms : list Message) :
  Forall assistant_or_tool ms -> filter is_user_turn ms = [].
Proof.
  induction 1 as [|m ms Hm _ IH]; [reflexivity|]. cbn [filter].
  rewrite IH. unfold is_user_turn.
  destruct Hm as [H|H]; rewrite H; reflexivity.
Qed.

Lemma replies_are_turn_events (evs : list Event) :
  Forall reply_event evs -> Forall turn_event evs.
Proof. apply Forall_impl. intros e H. right. exact H. Qed.

(** The turns of a list of user messages: [ran] are the messages whose
    turn was started, all of them unless a turn raised. *)
Lemma run_turns_effect (inputs : list string) (t : Task) :
  exists r ran rest evs fs ms,
    run_turns inputs t = Some r
    /\ inputs = ran ++ rest
    /\ (raised r = None -> rest = [])
    /\ issued_events (store r) = issued_events t ++ evs
    /\ Forall turn_event evs
    /\ map ev_content (filter is_user_message evs) = map Some ran
    /\ sent (store r) = sent t ++ fs
    /\ List.length ran
       = List.length (filter is_done_frame fs) + unfinished r
    /\ messages (store r) = messages t ++ ms
    /\ filter is_user_turn ms = map user_turn ran
    /\ llm_calls (store r) <= llm_calls t + 3 * List.length ran
    /\ same_session t (store r).
Proof.
  revert t. induction inputs as [|u inputs IH]; intros t; cbn [run_turns].
  - exists (Ok t), [], [], [], [], []. cbn [store]. rewrite !app_nil_r.
    repeat split; auto. cbn. lia.
  - destruct (run_turn_effect u t)
      as (r1 & evs1 & fs1 & ms1 & E & I1 & Fe1 & S1 & N1 & M1 & Fm1 & C1 & H1).
    rewrite E. destruct r1 as [t1|e1 t1]; cbn [store closing] in *.
    + destruct (IH t1)
        as (r & ran & rest & evs & fs & ms
            & E' & P & Q & I & Fe & U & S & D & M & Um & C & H).
      exists r, (u :: ran), rest, (user_message_event t u :: evs1 ++ evs),
        (fs1 ++ [FrameDone] ++ fs), (user_turn u :: ms1 ++ ms).
      split; [exact E'|].
      rewrite I, I1, S, S1, M, M1, <- !app_assoc. cbn [app].
      assert (Hsame : same_session t (store r))
        by (eapply same_session_trans; eassumption).
      split; [rewrite P; reflexivity|]. split; [exact Q|].
      split; [reflexivity|].
      split; [|split; [|split; [|split; [|split; [|split; [|split]]]]]];
        try reflexivity; try exact Hsame.
      * constructor; [left; reflexivity|].
        apply Forall_app.
        split; [apply replies_are_turn_events; exact Fe1 | exact Fe].
      * cbn [filter].
        change (is_user_message (user_message_event t u)) with true. cbv iota.
        rewrite filter_app, (no_user_message_in_replies evs1 Fe1).
        cbn [app map]. rewrite U. reflexivity.
      * rewrite filter_app, (no_done_frame fs1 N1).
        cbn [app filter is_done_frame]. cbn [List.length]. rewrite D. lia.
      * cbn [filter]. change (is_user_turn (user_turn u)) with true. cbv iota.
        rewrite filter_app, (no_user_turn_in_replies ms1 Fm1). cbn [app map].
        rewrite Um. reflexivity.
      * cbn [List.length]. lia.
    + exists (Exn e1 t1), [u], inputs, (user_message_event t u :: evs1),
        fs1, (user_turn u :: ms1).
      cbn [store raised unfinished]. rewrite app_nil_r in S1.
      split; [reflexivity|]. split; [reflexivity|].
      split; [discriminate|]. split; [exact I1|].
      split; [|split; [|split; [|split; [|split; [|split; [|split]]]]]];
        try assumption.
      * constructor; [left; reflexivity|].
        apply replies_are_turn_events; exact Fe1.
      * cbn [filter].
        change (is_user_message (user_message_event t u)) with true. cbv iota.
        rewrite (no_user_message_in_replies evs1 Fe1). reflexivity.
      * rewrite (no_done_frame fs1 N1). reflexivity.
      * cbn [filter]. change (is_user_turn (user_turn u)) with true. cbv iota.
        rewrite (no_user_turn_in_replies ms1 Fm1). reflexivity.
Qed.

Lemma handle_session_end_effect (t : Task) :
  let t' := handle_session_end t in
  issued_events t' = issued_events t ++ [session_end_event t]
  /\ events_table t'
     = events_table t ++ filter events_insert_ok [session_end_event t]
  /\ sent t' = sent t
  /\ messages t' = messages t
  /\ llm_calls t' = llm_calls t + 1
  /\ sessions_table t'
     = (if sessions_update_ok (session_id t)
        then map (fun r => if row_session_id r =? session_id t
                           then complete_session (final_summary t) r else r)
               (sessions_table t)
        else sessions_table t).
Proof.
  unfold handle_session_end, sessions_update, add_event, create_completion,
    session_end_event, final_summary, summary_request.
  cbn. destruct (events_insert_ok _); rewrite ?app_nil_r; repeat split.
Qed.

Lemma connection_effect (sid uid : string)
    (events0 : list Event) (sessions0 : list SessionRow)
    (frames : list string) :
  exists r ran rest evs fs ms,
    websocket_endpoint sid uid events0 sessions0 frames
    = Some (handle_session_end (store r))
    /\ run_turns (message_inputs frames) (connected sid uid events0 sessions0)
       = Some r
    /\ message_inputs frames = ran ++ rest
    /\ (raised r = None -> rest = [])
    /\ issued_events (store r) = session_start_event sid :: evs
    /\ Forall turn_event evs
    /\ map ev_content (filter is_user_message evs) = map Some ran
    /\ sent (store r) = fs
    /\ List.length ran
       = List.length (filter is_done_frame fs) + unfinished r
    /\ messages (store r) = ms
    /\ filter is_user_turn ms = map user_turn ran
    /\ llm_calls (store r) <= 3 * List.length ran
    /\ session_id (store r) = sid
    /\ sessions_table (store r) = sessions0 ++ [active_row sid uid].
Proof.
  destruct (receive_loop_turns frames (connected sid uid events0 sessions0))
    as (e & t & r0 & E & Et & Hst).
  destruct (run_turns_effect (message_inputs frames)
              (connected sid uid events0 sessions0))
    as (r & ran & rest & evs & fs & ms
        & E' & P & Q & I & Fe & U & S & D & M & Um & C & Hs & _ & Hr).
  rewrite Et in E'. injection E' as <-. subst t.
  exists r0, ran, rest, evs, fs, ms. split.
  - unfold websocket_endpoint. fold (connected sid uid events0 sessions0).
    rewrite E. reflexivity.
  - split; [exact Et|]. rewrite I, S, M, Hs, Hr.
    repeat split; auto.
Qed.


Lemma user_messages_of_connection (sid : string) (evs : list Event)
    (last : Event) :
  ev_event_type last = "session_end" ->
  filter is_user_message (session_start_event sid :: evs ++ [last])
  = filter is_user_message evs.
Proof.
  intros H. cbn [filter].
  change (is_user_message (session_start_event sid)) with false. cbv iota.
  rewrite filter_app. cbn [filter]. unfold is_user_message at 2.
  rewrite H. cbn. apply app_nil_r.
Qed.

(** *** The whole connection *)

(** X12. What a connection does is decided by the user messages among its
    frames: it is the turns of these messages, one after the other from the
    store with the [session_start] event and up to the first turn that
    raises, followed by the finalisation of the store so reached. Frames
    that are skipped, every frame after the first one that raises, and
    every message after a turn that raises, have no effect at all. *)
Theorem connection_runs_message_turns (sid uid : string)
    (events0 : list Event) (sessions0 : list SessionRow)
    (frames : list string) :
  websocket_endpoint sid uid events0 sessions0 frames
  = match run_turns (message_inputs frames)
            (connected sid uid events0 sessions0) with
    | Some r => Some (handle_session_end (store r))
    | None => None
    end.
Proof.
  destruct (connection_effect sid uid events0 sessions0 frames)
    as (r & ran & rest & evs & fs & ms & E & Et & _).
  rewrite E, Et. reflexivity.
Qed.

(** X13. Every connection issues exactly one [session_start] event, first,
    and exactly one [session_end] event, last; every event in between is
    a [user_message], [assistant_message], [tool_call] or [tool_result]. *)
Theorem connection_events_bracketed (sid uid : string)
    (events0 : list Event) (sessions0 : list SessionRow)
    (frames : list string) :
  exists t' middle last,
    websocket_endpoint sid uid events0 sessions0 frames = Some t'
    /\ issued_events t' = session_start_event sid :: middle ++ [last]
    /\ Forall turn_event middle
    /\ ev_event_type last = "session_end"
    /\ ev_session_id last = sid.
Proof.
  destruct (connection_effect sid uid events0 sessions0 frames)
    as (r & ran & rest & evs & fs & ms
        & E & _ & _ & _ & I & Fe & _ & _ & _ & _ & _ & _ & Hs & _).
  destruct (handle_session_end_effect (store r)) as (I' & _).
  exists (handle_session_end (store r)), evs, (session_end_event (store r)).
  rewrite E, I', I. repeat split; auto.
Qed.

(** X14. Over a connection every [user_message] event stands for a turn
    that was started, and every turn that returned sent exactly one [done]
    frame: the number of [user_message] events is the number of [done]
    frames, plus one when the last turn raised. It is at most the number
    of user messages among the frames, and equal to it when no turn
    raised. *)
Theorem done_frames_and_user_messages (sid uid : string)
    (events0 : list Event) (sessions0 : list SessionRow)
    (frames : list string) :
  exists t' r,
    websocket_endpoint sid uid events0 sessions0 frames = Some t'
    /\ run_turns (message_inputs frames) (connected sid uid events0 sessions0)
       = Some r
    /\ List.length (filter is_user_message (issued_events t'))
       = List.length (filter is_done_frame (sent t')) + unfinished r
    /\ List.length (filter is_user_message (issued_events t'))
       <= List.length (message_inputs frames)
    /\ (raised r = None ->
        List.length (filter is_done_frame (sent t'))
        = List.length (message_inputs frames)).
Proof.
  destruct (connection_effect sid uid events0 sessions0 frames)
    as (r & ran & rest & evs & fs & ms
        & E & Et & P & Q & I & _ & U & S & D & _).
  destruct (handle_session_end_effect (store r)) as (I' & _ & S' & _).
  exists (handle_session_end (store r)), r. rewrite E, S', S, I', I.
  assert (Hu : List.length
                 (filter is_user_message
                    ((session_start_event sid :: evs)
                     ++ [session_end_event (store r)]))
               = List.length ran).
  { cbn [app]. rewrite user_messages_of_connection by reflexivity.
    rewrite <- (length_map ev_content), U. apply length_map. }
  rewrite Hu.
  split; [reflexivity|]. split; [exact Et|]. split; [exact D|].
  rewrite P, length_app. split; [lia|].
  intros Hok. rewrite (Q Hok). destruct r; [|discriminate Hok].
  cbn [unfinished] in D. cbn [List.length]. lia.
Qed.


(** X16. A connection whose frames hold [k] user messages calls the
    completion service at most [3 k + 1] times: at most 3 per turn, and
    once for the summary. *)
Theorem connection_completion_calls_bounded (sid uid : string)
    (events0 : list Event) (sessions0 : list SessionRow)
    (frames : list string) :
  exists t',
    websocket_endpoint sid uid events0 sessions0 frames = Some t'
    /\ llm_calls t' <= 3 * List.length (message_inputs frames) + 1.
Proof.
  destruct (connection_effect sid uid events0 sessions0 frames)
    as (r & ran & rest & evs & fs & ms
        & E & _ & P & _ & _ & _ & _ & _ & _ & _ & _ & C & _).
  destruct (handle_session_end_effect (store r)) as (_ & _ & _ & _ & C' & _).
  exists (handle_session_end (store r)). rewrite E, C', P, length_app.
  split; [reflexivity | lia].
Qed.

(** X17. The [sessions] table after a connection. The summary is the one
    [handle_session_end] settles on for the store that the turns left: the
    text of the summary answer, or [Summary generation failed] when that
    call raises; it is the content of the [session_end] event, the last
    event issued. When the final update succeeds, the row the connection
    inserted is [completed] and holds this summary, rows of other sessions
    are untouched, and any older row with the same session id is
    overwritten with the same status and summary; when the update fails,
    the table is as the insert left it and the new row stays [active]. *)
Theorem session_rows_after_connection (sid uid : string)
    (events0 : list Event) (sessions0 : list SessionRow)
    (frames : list string) :
  exists t' r evs,
    websocket_endpoint sid uid events0 sessions0 frames = Some t'
    /\ run_turns (message_inputs frames) (connected sid uid events0 sessions0)
       = Some r
    /\ issued_events t' = evs ++ [session_end_event (store r)]
    /\ ev_content (session_end_event (store r)) = final_summary (store r)
    /\ final_summary (store r)
       = match completions_create (llm_calls (store r))
                 (summary_request (store r)) with
         | inr summary_response => resp_content summary_response
         | inl _ => Some "Summary generation failed"
         end
    /\ sessions_table t'
       = (if sessions_update_ok sid
          then map (fun row => if row_session_id row =? sid
                               then complete_session
                                      (final_summary (store r)) row
                               else row)
                 sessions0
               ++ [{| row_session_id := sid; row_user_id := uid;
                      row_status := "completed";
                      row_summary := Some (final_summary (store r)) |}]
          else sessions0 ++ [active_row sid uid]).
Proof.
  destruct (connection_effect sid uid events0 sessions0 frames)
    as (r & ran & rest & evs & fs & ms
        & E & Et & _ & _ & I & _ & _ & _ & _ & _ & _ & _ & Hs & Hr).
  destruct (handle_session_end_effect (store r))
    as (I' & _ & _ & _ & _ & R).
  exists (handle_session_end (store r)), r, (issued_events (store r)).
  rewrite E, R, Hs, Hr.
  split; [reflexivity|]. split; [exact Et|]. split; [exact I'|].
  split; [reflexivity|]. split; [reflexivity|].
  destruct (sessions_update_ok sid); [|reflexivity].
  rewrite map_app. cbn [map active_row row_session_id].
  rewrite String.eqb_refl. reflexivity.
Qed.

(** X18. When the completion call for the summary raises, the session is
    still finalised: the [session_end] event is issued with the content
    [Summary generation failed], and that text is the summary written to
    the rows of the session when the update succeeds. *)
Theorem summary_failure_falls_back (t : Task) (msg : string) :
  completions_create (llm_calls t) (summary_request t) = inl msg ->
  let t' := handle_session_end t in
  (exists e,
      issued_events t' = issued_events t ++ [e]
      /\ ev_event_type e = "session_end"
      /\ ev_content e = Some "Summary generation failed"
      /\ ev_sequence_num e = event_sequence t + 1)
  /\ (sessions_update_ok (session_id t) = true ->
      sessions_table t'
      = map (fun r => if row_session_id r =? session_id t
                      then complete_session
                             (Some "Summary generation failed") r
                      else r)
          (sessions_table t)).
Proof.
  intros Hfail t'.
  destruct (handle_session_end_effect t) as (I & _ & _ & _ & _ & R).
  fold t' in I, R.
  assert (Hsum : final_summary t = Some "Summary generation failed")
    by (unfold final_summary; rewrite Hfail; reflexivity).
  split.
  - exists (session_end_event t). rewrite I.
    unfold session_end_event; cbn [ev_event_type ev_content ev_sequence_num].
    rewrite Hsum. repeat split.
  - intros Hok. rewrite R, Hok, Hsum. reflexivity.
Qed.

(** *** Frames and history of a turn that fails *)

(** X19. The frames of one turn follow a fixed protocol. A turn that
    returns sends [text] and [tool_use] frames, then at most one [error]
    frame, then [done]; so an [error] frame, when there is one, is the last
    frame before [done]. A turn that an exception leaves sends [text] and
    [tool_use] frames only, and no [done]. *)
Theorem turn_frame_protocol (t : Task) :
  exists r body tail,
    stream_llm_response t = Some r
    /\ Forall content_frame body
    /\ match r with
       | Ok t' =>
           sent t' = sent t ++ body ++ tail ++ [FrameDone]
           /\ (tail = [] \/ exists msg, tail = [FrameError msg])
       | Exn _ t' => sent t' = sent t ++ body /\ tail = []
       end.
Proof.
  destruct (stream_llm_response_total t) as [r E].
  destruct (turn_frames t r E) as (body & tail & F & T).
  exists r, body, tail. auto.
Qed.

(** X20. A turn whose first completion call raises leaves the user turn
    in the history without any reply, issues the [user_message] event and
    no other, and sends the [error] frame and [done]; the next request will
    therefore carry this unanswered user turn. *)
Theorem failed_turn_keeps_user_turn
    (user_input : string) (t : Task) (msg : string) :
  completions_create (llm_calls t)
    (user_turn system_prompt :: messages t ++ [user_turn user_input])
  = inl msg ->
  exists t',
    run_turn user_input t = Some (Ok t')
    /\ messages t' = messages t ++ [user_turn user_input]
    /\ issued_events t'
       = issued_events t ++ [user_message_event t user_input]
    /\ sent t' = sent t ++ [FrameError msg; FrameDone]
    /\ llm_calls t' = llm_calls t + 1.
Proof.
  intros Hfail. unfold run_turn, stream_llm_response.
  rewrite (while_loop_on_failure max_iterations 0 _ msg);
    [| unfold max_iterations; lia | exact Hfail].
  eexists. split; [reflexivity|].
  unfold send_json, create_completion, messages_append, messages_extend,
    add_event; cbn [sent snd messages issued_events llm_calls].
  rewrite <- app_assoc. repeat split.
Qed.

End MoreProperties.

(** ** Further concrete runs *)

Module MoreScenarios.

Import Reference Fixtures Inputs.

Lemma undeclared_tool_reports_unknown_witness :
  process_tool_call (py := cpython) "delete_universe" (JArr [])
  = inr (dumps (JObj [("error", JStr "Unknown tool")])).
Proof.
  apply (undeclared_tool_reports_unknown (py := cpython)).
  intros [H|[H|[]]]; discriminate H.
Defined.

Lemma declared_tool_accepts_schema_input_witness :
  exists result,
    process_tool_call (py := cpython) "fetch_user_data" (JObj alice_input)
    = inr (dumps (JObj result)).
Proof.
  apply (declared_tool_accepts_schema_input (py := cpython)
           "fetch_user_data" ["user_id"] alice_input).
  - left. reflexivity.
  - intros k [<-|[]]. eexists. reflexivity.
Defined.

Example fetch_user_data_truncates_name :
  process_tool_call (py := cpython) "fetch_user_data" (JObj alice_input)
  = inr (dumps (JObj [("user_id", JStr "user_alice_0123456789");
                      ("name", JStr "User_user_ali");
                      ("tier", JStr "premium");
                      ("created_at", JStr "2024-01-15")])).
Proof. reflexivity. Qed.

Lemma declared_tool_missing_key_witness :
  process_tool_call (py := cpython) "search_knowledge_base"
    (JObj [("q", JStr "X")])
  = inl (KeyError "query").
Proof.
  apply (declared_tool_missing_key (py := cpython)
           "search_knowledge_base" ["query"]).
  - right. left. reflexivity.
  - left. reflexivity.
  - reflexivity.
Defined.

Lemma tool_calls_history_complete_witness :
  exists t',
    handle_tool_calls (py := cpython) (svc := scripted [] reliable)
      [search_x] fresh = Ok t'
    /\ messages t'
       = [assistant_calls_turn [search_x];
          tool_turn "call_1" (dumps results_x)].
Proof.
  apply (tool_calls_history_complete (py := cpython)
           (svc := scripted [] reliable) [search_x] fresh).
  intros tc [<-|[]]. eexists. eexists. split; reflexivity.
Defined.

Lemma runaway_provider_makes_3_calls_witness :
  exists t',
    stream_llm_response (py := cpython) (svc := always (asks [search_x]))
      fresh = Some (Ok t')
    /\ llm_calls t' = 3.
Proof.
  apply (runaway_provider_makes_3_calls (py := cpython)
           (svc := always (asks [search_x])) fresh).
  intros n req. eexists. eexists. eexists.
  split; [reflexivity|]. split; reflexivity.
Defined.

Lemma plain_answer_turn_witness :
  exists t',
    stream_llm_response (py := cpython) (svc := answers_hi) fresh
    = Some (Ok t')
    /\ sent t' = [FrameText "Hi."; FrameDone]
    /\ issued_events t'
       = [assistant_message_event fresh "Hi."]
    /\ messages t' = [assistant_text_turn "Hi."]
    /\ llm_calls t' = 1
    /\ tool_invocations t' = [].
Proof.
  apply (plain_answer_turn (py := cpython) (svc := answers_hi)
           fresh hi_response " Hi. ").
  - reflexivity.
  - left. reflexivity.
  - reflexivity.
  - vm_compute. discriminate.
  - reflexivity.
Defined.

Lemma summary_failure_falls_back_witness :
  map (fun e => (ev_event_type e, ev_content e))
    (issued_events
       (handle_session_end (svc := provider_down) fresh))
  = [("session_end", Some "Summary generation failed")]
  /\ map row_summary
       (sessions_table
          (handle_session_end (svc := provider_down) fresh))
     = [Some (Some "Summary generation failed")].
Proof.
  destruct (summary_failure_falls_back (svc := provider_down)
              fresh "Connection error." eq_refl) as [(e & I & T & C & _) R].
  split.
  - rewrite I. cbn [issued_events fresh app map]. rewrite T, C. reflexivity.
  - rewrite (R eq_refl). reflexivity.
Defined.

Lemma failed_turn_keeps_user_turn_witness :
  exists t',
    run_turn (py := cpython) (svc := provider_down) "hello" fresh
    = Some (Ok t')
    /\ messages t' = [user_turn "hello"]
    /\ issued_events t'
       = [user_message_event fresh "hello"]
    /\ sent t' = [FrameError "Connection error."; FrameDone]
    /\ llm_calls t' = 1.
Proof.
  exact (failed_turn_keeps_user_turn (py := cpython) (svc := provider_down)
           "hello" fresh "Connection error." eq_refl).
Defined.

(** Skipped frames and the frames after a raising one leave no trace. *)
Example message_inputs_of_mixed_frames :
  message_inputs (py := cpython)
    [dq "{'type': 'ping'}"; hello_frame;
     dq "{'type': 'message', 'content': '  '}"; search_frame;
     "{invalid"; hello_frame]
  = ["hello"; "search for X"].
Proof. vm_compute. reflexivity. Qed.

(** A second connection with the same session id rewrites the row of the
    first. *)
Example reconnection_overwrites_summary :
  option_map (fun t => map row_summary (sessions_table t))
    (websocket_endpoint (py := cpython)
       (svc := scripted [plain "- second"] reliable)
       "s1" "user_2" []
       [{| row_session_id := "s1"; row_user_id := "user_1";
           row_status := "completed";
           row_summary := Some (Some "- first") |}]
       [])
  = Some [Some (Some "- second"); Some (Some "- second")].
Proof. vm_compute. reflexivity. Qed.

(** A turn that raises ends the connection: its message has an event and
    no [done] frame, and the message after it is not served. *)
Example raising_turn_ends_connection :
  option_map
    (fun t => (map ev_content (filter is_user_message (issued_events t)),
               List.length (filter is_done_frame (sent t)),
               filter is_user_turn (messages t),
               llm_calls t))
    (websocket_endpoint (py := cpython)
       (svc := scripted [plain "Hi."; asks [unreadable_search];
                         plain "- a greeting"] reliable)
       "s1" "user_0a1b2c3d" [] []
       [hello_frame; search_frame; hello_frame])
  = Some ([Some "hello"; Some "search for X"], 1,
          [user_turn "hello"; user_turn "search for X"], 3).
Proof. vm_compute. reflexivity. Qed.

(** The calls before the one that raises are handled, the others are
    not. *)
Example calls_before_the_raising_one :
  map tc_id
    (handled_calls (py := cpython) [search_x; unreadable_search; bad_search])
  = ["call_1"]
  /\ map (fun e => (ev_event_type e, ev_tool_call_id e))
       (issued_events
          (store
             (handle_tool_calls (py := cpython)
                (svc := scripted [] reliable)
                [search_x; unreadable_search; bad_search] fresh)))
     = [("tool_call", Some "call_1"); ("tool_result", Some "call_1")].
Proof. vm_compute. split; reflexivity. Qed.

End MoreScenarios.
